(** * Request signing and response handling of the Tencent translation client

    A shallow embedding of [src/open_llm_vtuber/translate/tencent.py]:
    the helper [sign], the class [TencentTranslate] with its methods
    [create_signature], [_prepare_headers] and [translate], together with
    the parts of the Python standard library the module calls
    ([str.encode], [hashlib.sha256], [hmac.new], [json.dumps],
    [datetime.fromtimestamp] and [strftime]).

    Python values are modelled as follows.
    - A [str] is the list of its Unicode code points, each an [N].
    - A [bytes] object is a [list byte].
    - A raised exception is the [Raise] case of [result]; code that also
      reads the clock, talks to the network or logs runs in the monad [Eff].
    - The header [dict] is a [gmap] from header name to header value. *)

From Stdlib Require Import ZArith NArith List String Ascii Lia DecimalString.
From Stdlib.Strings Require Import Byte.
From stdpp Require Import base option list gmap.
Import ListNotations.

Set Warnings "-register-all".

Abbreviation str := (list N) (only parsing).
Abbreviation bytes := (list byte) (only parsing).

(** ** String literals *)

(** The code points of a source literal.  Every literal of the module is
    ASCII, so each character is its own code point. *)
Definition lit (s : string) : str :=
  map Byte.to_N (list_byte_of_string s).

Definition byte_of_N (n : N) : byte :=
  default x00 (Byte.of_N (n mod 256)).

(** ** Exceptions *)

Inductive exn : Type :=
| UnicodeEncodeError
    (** [str.encode("utf-8")] met a code point that has no UTF-8 form *)
| AttributeError (attr : string)
    (** attribute lookup on an object that lacks the attribute *)
| TimestampOutOfRange
    (** [datetime.fromtimestamp] outside years 1..9999
        ([ValueError] or [OverflowError], by platform) *)
| Foreign (name : string) (is_Exception : bool) (text : str)
    (** raised by a collaborator ([httpx], the JSON decoder); the flag
        tells whether its class derives from [Exception] *).

(** [isinstance(e, Exception)] *)
Definition isinstance_Exception (e : exn) : bool :=
  match e with
  | Foreign _ b _ => b
  | _ => true
  end.

Inductive result (A : Type) : Type :=
| Ok (a : A)
| Raise (e : exn).
Arguments Ok {A} a.
Arguments Raise {A} e.

#[global] Instance result_ret : MRet result := fun A a => Ok a.
#[global] Instance result_bind : MBind result := fun A B f m =>
  match m with
  | Ok a => f a
  | Raise e => Raise e
  end.

(** ** [str.encode("utf-8")] *)

Module UTF8.
Local Open Scope N_scope.

(** A continuation byte carrying six bits of [n], taken [k] bits up. *)
Definition cont (n k : N) : byte :=
  byte_of_N (0x80 + N.land (N.shiftr n k) 0x3f).

(** The bytes of one code point; surrogates (U+D800..U+DFFF) and values
    above U+10FFFF have none. *)
Definition encode_char (c : N) : option bytes :=
  if c <? 0x80 then Some [byte_of_N c]
  else if c <? 0x800 then
    Some [byte_of_N (0xc0 + N.shiftr c 6); cont c 0]
  else if (0xd800 <=? c) && (c <=? 0xdfff) then None
  else if c <? 0x10000 then
    Some [byte_of_N (0xe0 + N.shiftr c 12); cont c 6; cont c 0]
  else if c <=? 0x10ffff then
    Some [byte_of_N (0xf0 + N.shiftr c 18); cont c 12; cont c 6; cont c 0]
  else None.

Fixpoint encode_opt (s : str) : option bytes :=
  match s with
  | [] => Some []
  | c :: rest =>
      match encode_char c, encode_opt rest with
      | Some b, Some bs => Some (b ++ bs)
      | _, _ => None
      end
  end.

(** Whether every character of [s] is ASCII. *)
Definition ascii_only (s : str) : bool := forallb (fun c => c <? 0x80) s.

(** Whether [s] has a UTF-8 form, that is, [s.encode] does not raise. *)
Definition encodable (s : str) : bool :=
  match encode_opt s with
  | Some _ => true
  | None => false
  end.

End UTF8.

(** [s.encode("utf-8")] *)
Definition encode_utf8 (s : str) : result bytes :=
  match UTF8.encode_opt s with
  | Some b => Ok b
  | None => Raise UnicodeEncodeError
  end.

(** ** [hashlib.sha256] (FIPS 180-4) *)

Module SHA256.
Local Open Scope N_scope.

Definition mask32 : N := 0xffffffff.
Definition wrap32 (x : N) : N := N.land x mask32.
Definition add32 (x y : N) : N := wrap32 (x + y).
Definition not32 (x : N) : N := N.lxor (wrap32 x) mask32.
Definition rotr (n x : N) : N :=
  N.lor (N.shiftr x n) (wrap32 (N.shiftl x (32 - n))).

Definition Ch (x y z : N) : N := N.lxor (N.land x y) (N.land (not32 x) z).
Definition Maj (x y z : N) : N :=
  N.lxor (N.lxor (N.land x y) (N.land x z)) (N.land y z).
Definition Sum0 (x : N) : N := N.lxor (N.lxor (rotr 2 x) (rotr 13 x)) (rotr 22 x).
Definition Sum1 (x : N) : N := N.lxor (N.lxor (rotr 6 x) (rotr 11 x)) (rotr 25 x).
Definition sig0 (x : N) : N := N.lxor (N.lxor (rotr 7 x) (rotr 18 x)) (N.shiftr x 3).
Definition sig1 (x : N) : N := N.lxor (N.lxor (rotr 17 x) (rotr 19 x)) (N.shiftr x 10).

(** The first sixty-four primes. *)
Definition primes : list N :=
  [2; 3; 5; 7; 11; 13; 17; 19; 23; 29; 31; 37; 41; 43; 47; 53;
   59; 61; 67; 71; 73; 79; 83; 89; 97; 101; 103; 107; 109; 113; 127; 131;
   137; 139; 149; 151; 157; 163; 167; 173; 179; 181; 191; 193; 197; 199; 211; 223;
   227; 229; 233; 239; 241; 251; 257; 263; 269; 271; 277; 281; 283; 293; 307; 311].

(** The integer cube root of [n], found bit by bit from bit [k] down. *)
Fixpoint cube_root_from (k : nat) (n r : N) : N :=
  match k with
  | O => r
  | S k' =>
      let r' := r + N.shiftl 1 (N.of_nat k') in
      if r' * r' * r' <=? n then cube_root_from k' n r' else cube_root_from k' n r
  end.

(** The first 32 bits of the fractional part of the square root, and of
    the cube root, of [p]. *)
Definition frac_sqrt (p : N) : N := wrap32 (N.sqrt (N.shiftl p 64)).
Definition frac_cbrt (p : N) : N := wrap32 (cube_root_from 40 (N.shiftl p 96) 0).

(** Section 4.2.2: the round constants come from the cube roots of the
    first sixty-four primes. *)
Definition round_constants : list N :=
  Eval vm_compute in map frac_cbrt primes.

(** The eight working words a..h, also the running hash value. *)
Record regs : Type := Regs {
  ra : N; rb : N; rc : N; rd : N; re : N; rf : N; rg : N; rh : N
}.

Definition regs_of_list (l : list N) : regs :=
  Regs (nth 0 l 0) (nth 1 l 0) (nth 2 l 0) (nth 3 l 0)
       (nth 4 l 0) (nth 5 l 0) (nth 6 l 0) (nth 7 l 0).

(** Section 5.3.3: the initial hash value comes from the square roots of
    the first eight primes. *)
Definition initial_hash : regs :=
  Eval vm_compute in regs_of_list (map frac_sqrt (take 8 primes)).

(** [n] as [k] bytes, most significant first. *)
Fixpoint be_bytes (k : nat) (n : N) : bytes :=
  match k with
  | O => []
  | S k' => byte_of_N (N.shiftr n (8 * N.of_nat k')) :: be_bytes k' n
  end.

Definition be_word (b3 b2 b1 b0 : byte) : N :=
  N.lor (N.shiftl (Byte.to_N b3) 24)
    (N.lor (N.shiftl (Byte.to_N b2) 16)
       (N.lor (N.shiftl (Byte.to_N b1) 8) (Byte.to_N b0))).

(** Section 5.1.1: a one bit, zero bits up to 56 modulo 64 bytes, then the
    message length in bits as a 64-bit big-endian number. *)
Definition pad (msg : bytes) : bytes :=
  let len := N.of_nat (length msg) in
  let zeros := N.to_nat ((119 - len mod 64) mod 64) in
  msg ++ x80 :: repeat x00 zeros ++ be_bytes 8 (N.land (8 * len) 0xffffffffffffffff).

(** Big-endian 32-bit words of a byte string (a short tail is dropped;
    padded input has none). *)
Fixpoint words (fuel : nat) (bs : bytes) : list N :=
  match fuel, bs with
  | S fuel', b3 :: b2 :: b1 :: b0 :: rest => be_word b3 b2 b1 b0 :: words fuel' rest
  | _, _ => []
  end.

Fixpoint chunks (fuel : nat) (ws : list N) : list (list N) :=
  match fuel, ws with
  | S fuel', _ :: _ => take 16 ws :: chunks fuel' (drop 16 ws)
  | _, _ => []
  end.

(** Message schedule, most recent word first: from W(t-1) .. W(t-16)
    compute W(t). *)
Definition next_w (rev_w : list N) : N :=
  add32 (add32 (sig1 (nth 1 rev_w 0)) (nth 6 rev_w 0))
        (add32 (sig0 (nth 14 rev_w 0)) (nth 15 rev_w 0)).

Fixpoint extend (n : nat) (rev_w : list N) : list N :=
  match n with
  | O => rev_w
  | S n' => extend n' (next_w rev_w :: rev_w)
  end.

Definition schedule (block : list N) : list N :=
  rev (extend 48 (rev block)).

Definition round (s : regs) (kw : N * N) : regs :=
  let t1 := add32 (add32 (add32 (rh s) (Sum1 (re s)))
                         (add32 (Ch (re s) (rf s) (rg s)) (fst kw))) (snd kw) in
  let t2 := add32 (Sum0 (ra s)) (Maj (ra s) (rb s) (rc s)) in
  Regs (add32 t1 t2) (ra s) (rb s) (rc s) (add32 (rd s) t1) (re s) (rf s) (rg s).

Definition compress (h : regs) (block : list N) : regs :=
  let s := fold_left round (combine round_constants (schedule block)) h in
  Regs (add32 (ra h) (ra s)) (add32 (rb h) (rb s))
       (add32 (rc h) (rc s)) (add32 (rd h) (rd s))
       (add32 (re h) (re s)) (add32 (rf h) (rf s))
       (add32 (rg h) (rg s)) (add32 (rh h) (rh s)).

(** [hashlib.sha256(msg).digest()] *)
Definition digest (msg : bytes) : bytes :=
  let padded := pad msg in
  let ws := words (length padded) padded in
  let h := fold_left compress (chunks (length ws) ws) initial_hash in
  flat_map (be_bytes 4) [ra h; rb h; rc h; rd h; re h; rf h; rg h; rh h].

End SHA256.

(** ** [bytes.hex()] and the [hexdigest] methods *)

Definition hex_digit (n : N) : N :=
  (if n <? 10 then 48 + n else 87 + n)%N.

Definition hex_of_byte (b : byte) : str :=
  let n := Byte.to_N b in
  [hex_digit (N.shiftr n 4); hex_digit (N.land n 15)].

Definition hex (bs : bytes) : str := flat_map hex_of_byte bs.

(** [hashlib.sha256(msg).hexdigest()] *)
Definition sha256_hexdigest (msg : bytes) : str := hex (SHA256.digest msg).

(** ** [hmac.new(key, msg, hashlib.sha256)] (RFC 2104) *)

Module HMAC.

Definition block_size : nat := 64.

Definition xor_byte (pad_byte : N) (b : byte) : byte :=
  byte_of_N (N.lxor (Byte.to_N b) pad_byte).

(** A key longer than one block is replaced by its digest; the key is then
    filled with zero bytes to a whole block. *)
Definition block_key (key : bytes) : bytes :=
  let k := if Nat.ltb block_size (length key) then SHA256.digest key else key in
  k ++ repeat x00 (block_size - length k).

(** [hmac.new(key, msg, hashlib.sha256).digest()] *)
Definition digest (key msg : bytes) : bytes :=
  let k := block_key key in
  let inner := SHA256.digest (map (xor_byte 0x36) k ++ msg) in
  SHA256.digest (map (xor_byte 0x5c) k ++ inner).

(** [hmac.new(key, msg, hashlib.sha256).hexdigest()] *)
Definition hexdigest (key msg : bytes) : str := hex (digest key msg).

End HMAC.

(** ** Built-in string operations *)

Definition nl : str := [10%N].

(** [sep.join(parts)] *)
Fixpoint join (sep : str) (parts : list str) : str :=
  match parts with
  | [] => []
  | [p] => p
  | p :: rest => p ++ sep ++ join sep rest
  end.

(** [s.lower()], exact on ASCII text: the letters A..Z move to a..z.  The
    module lowers one string only, the action name. *)
Definition lower_char (c : N) : N :=
  (if (65 <=? c) && (c <=? 90) then c + 32 else c)%N.
Definition lower (s : str) : str := map lower_char s.

(** [str(n)] for an [int]: decimal digits, a minus sign when negative. *)
Definition str_of_int (n : Z) : str :=
  lit (NilZero.string_of_int (Z.to_int n)).

(** [bool(s)] for a [str]: true exactly when non-empty. *)
Definition truthy (s : str) : bool :=
  match s with
  | [] => false
  | _ :: _ => true
  end.

(** ** JSON values as Python objects *)

Inductive pyval : Type :=
| PNone
| PBool (b : bool)
| PInt (n : Z)
| PFloat (repr : string)       (** a float, named by its [repr] *)
| PStr (s : str)
| PList (items : list pyval)
| PDict (items : list (str * pyval)).
    (** keys with their values in insertion order; a key occurs once *)

(** [d.get(key)] on the items of a dict. *)
Fixpoint dict_lookup (key : str) (items : list (str * pyval)) : option pyval :=
  match items with
  | [] => None
  | (k, v) :: rest => if decide (k = key) then Some v else dict_lookup key rest
  end.

(** [obj.get(key, dflt)]: only a dict has the method [get]. *)
Definition py_get (obj : pyval) (key : str) (dflt : pyval) : result pyval :=
  match obj with
  | PDict items => Ok (default dflt (dict_lookup key items))
  | _ => Raise (AttributeError "get")
  end.

(** ** [json.dumps] with its default options *)

Module JSON.
Local Open Scope N_scope.

(** ['{0:04x}'.format(n)] for [n < 0x10000] *)
Definition hex4 (n : N) : str :=
  [hex_digit (N.land (N.shiftr n 12) 15); hex_digit (N.land (N.shiftr n 8) 15);
   hex_digit (N.land (N.shiftr n 4) 15); hex_digit (N.land n 15)].

Definition u_escape (n : N) : str := [92; 117] ++ hex4 n.

(** The replacement of one character under [ensure_ascii=True]: printable
    ASCII other than the backslash and the quote stays, the rest is
    escaped, code points above U+FFFF as a surrogate pair. *)
Definition escape_char (c : N) : str :=
  if c =? 92 then [92; 92]
  else if c =? 34 then [92; 34]
  else if (32 <=? c) && (c <=? 126) then [c]
  else if c =? 8 then [92; 98]
  else if c =? 12 then [92; 102]
  else if c =? 10 then [92; 110]
  else if c =? 13 then [92; 114]
  else if c =? 9 then [92; 116]
  else if c <? 0x10000 then u_escape c
  else
    let n := c - 0x10000 in
    u_escape (N.lor 0xd800 (N.land (N.shiftr n 10) 0x3ff))
      ++ u_escape (N.lor 0xdc00 (N.land n 0x3ff)).

(** [encode_basestring_ascii(s)] *)
Definition encode_basestring_ascii (s : str) : str :=
  [34] ++ flat_map escape_char s ++ [34].

Fixpoint dumps (v : pyval) : str :=
  match v with
  | PNone => lit "null"
  | PBool true => lit "true"
  | PBool false => lit "false"
  | PInt n => str_of_int n
  | PFloat r => lit r
  | PStr s => encode_basestring_ascii s
  | PList items =>
      lit "[" ++
      (fix elements (l : list pyval) : str :=
         match l with
         | [] => []
         | [x] => dumps x
         | x :: rest => dumps x ++ lit ", " ++ elements rest
         end) items
      ++ lit "]"
  | PDict items =>
      lit "{" ++
      (fix members (l : list (str * pyval)) : str :=
         match l with
         | [] => []
         | [(k, x)] => encode_basestring_ascii k ++ lit ": " ++ dumps x
         | (k, x) :: rest =>
             encode_basestring_ascii k ++ lit ": " ++ dumps x ++ lit ", " ++ members rest
         end) items
      ++ lit "}"
  end.

End JSON.

(** ** [datetime.fromtimestamp(t, timezone.utc).strftime("%Y-%m-%d")] *)

Module Calendar.
Local Open Scope Z_scope.

Record date : Type := Date { year : Z; month : Z; day : Z }.

Definition DI400Y : Z := 146097.
Definition DI100Y : Z := 36524.
Definition DI4Y : Z := 1461.

Definition days_in_month (m : Z) : Z :=
  nth (Z.to_nat m) [-1; 31; 28; 31; 30; 31; 30; 31; 31; 30; 31; 30; 31] 0.
Definition days_before_month (m : Z) : Z :=
  nth (Z.to_nat m) [-1; 0; 31; 59; 90; 120; 151; 181; 212; 243; 273; 304; 334] 0.

Definition b2z (b : bool) : Z := if b then 1 else 0.

(** The proleptic Gregorian date of ordinal [n], where day 1 is
    0001-01-01 (the library's [_ord2ymd]). *)
Definition ord2ymd (n : Z) : date :=
  let n := n - 1 in
  let n400 := n / DI400Y in
  let n := n mod DI400Y in
  let n100 := n / DI100Y in
  let n := n mod DI100Y in
  let n4 := n / DI4Y in
  let n := n mod DI4Y in
  let n1 := n / 365 in
  let n := n mod 365 in
  let y := n400 * 400 + 1 + n100 * 100 + n4 * 4 + n1 in
  if (n1 =? 4) || (n100 =? 4) then Date (y - 1) 12 31
  else
    let leapyear := (n1 =? 3) && (negb (n4 =? 24) || (n100 =? 3)) in
    let m := Z.shiftr (n + 50) 5 in
    let preceding := days_before_month m + b2z ((2 <? m) && leapyear) in
    if n <? preceding then
      let m' := m - 1 in
      let preceding' := preceding - (days_in_month m' + b2z ((m' =? 2) && leapyear)) in
      Date y m' (n - preceding' + 1)
    else Date y m (n - preceding + 1).

(** Ordinal of 1970-01-01 and of 9999-12-31. *)
Definition epoch_ordinal : Z := 719163.
Definition max_ordinal : Z := 3652059.

(** The UTC calendar date of [t] seconds since the epoch; instants before
    year 1 or after year 9999 are refused. *)
Definition fromtimestamp_utc (t : Z) : result date :=
  let ordinal := t / 86400 + epoch_ordinal in
  if (1 <=? ordinal) && (ordinal <=? max_ordinal) then Ok (ord2ymd ordinal)
  else Raise TimestampOutOfRange.

(** Decimal digits of [n], zero-filled on the left to [width]. *)
Definition zero_fill (width : nat) (n : Z) : str :=
  let digits := str_of_int n in
  repeat 48%N (width - length digits) ++ digits.

(** [d.strftime("%Y-%m-%d")] *)
Definition strftime_Ymd (d : date) : str :=
  zero_fill 4 (year d) ++ lit "-" ++ zero_fill 2 (month d) ++ lit "-" ++ zero_fill 2 (day d).

End Calendar.

(** ** The module *)

(** [sign(key, msg)] *)
Definition sign (key : bytes) (msg : str) : result bytes :=
  m ← encode_utf8 msg;
  mret (HMAC.digest key m).

(** The attributes of a [TencentTranslate] instance. *)
Record TencentTranslate : Type := {
  secret_id : str;
  secret_key : str;
  token : str;
  region : str;
  service : str;
  host : str;
  version : str;
  action : str;
  algorithm : str;
  source_lang : str;
  target_lang : str
}.

Definition default_token : str := lit "".
Definition default_region : str := lit "ap-guangzhou".
Definition default_source_lang : str := lit "zh".
Definition default_target_lang : str := lit "ja".

(** [TencentTranslate.__init__] *)
Definition __init__ (secret_id secret_key token region source_lang target_lang : str)
  : TencentTranslate :=
  {| secret_id := secret_id;
     secret_key := secret_key;
     token := token;
     region := region;
     service := lit "tmt";
     host := lit "tmt.tencentcloudapi.com";
     version := lit "2018-03-21";
     action := lit "TextTranslate";
     algorithm := lit "TC3-HMAC-SHA256";
     source_lang := source_lang;
     target_lang := target_lang |}.

(** [TencentTranslate.create_signature] *)
Definition create_signature (self : TencentTranslate) (date service : str)
  : result bytes :=
  key ← encode_utf8 (lit "TC3" ++ secret_key self);
  secret_date ← sign key date;
  secret_service ← sign secret_date service;
  secret_signing ← sign secret_service (lit "tc3_request");
  mret secret_signing.

(** The locals of [_prepare_headers], in the order the method binds them. *)

Definition ct : str := lit "application/json; charset=utf-8".
Definition canonical_uri : str := lit "/".
Definition canonical_querystring : str := lit "".
Definition signed_headers : str := lit "content-type;host;x-tc-action".

Definition canonical_headers (self : TencentTranslate) : str :=
  lit "content-type:" ++ ct ++ nl ++
  lit "host:" ++ host self ++ nl ++
  lit "x-tc-action:" ++ lower (action self) ++ nl.

Definition hashed_request_payload (payload : str) : result str :=
  b ← encode_utf8 payload;
  mret (sha256_hexdigest b).

Definition canonical_request (self : TencentTranslate) (payload : str) : result str :=
  h ← hashed_request_payload payload;
  mret (join nl [lit "POST"; canonical_uri; canonical_querystring;
                 canonical_headers self; signed_headers; h]).

Definition credential_scope (self : TencentTranslate) (date : str) : str :=
  date ++ lit "/" ++ service self ++ lit "/tc3_request".

Definition hashed_canonical_request (self : TencentTranslate) (payload : str)
  : result str :=
  cr ← canonical_request self payload;
  b ← encode_utf8 cr;
  mret (sha256_hexdigest b).

Definition string_to_sign (self : TencentTranslate) (payload : str)
    (timestamp : Z) (date : str) : result str :=
  h ← hashed_canonical_request self payload;
  mret (algorithm self ++ nl ++ str_of_int timestamp ++ nl ++
        credential_scope self date ++ nl ++ h).

Definition signature (self : TencentTranslate) (payload : str)
    (timestamp : Z) (date : str) : result str :=
  sts ← string_to_sign self payload timestamp date;
  secret_signing ← create_signature self date (service self);
  m ← encode_utf8 sts;
  mret (HMAC.hexdigest secret_signing m).

Definition authorization (self : TencentTranslate) (payload : str)
    (timestamp : Z) (date : str) : result str :=
  sg ← signature self payload timestamp date;
  mret (algorithm self ++ lit " Credential=" ++ secret_id self ++ lit "/" ++
        credential_scope self date ++ lit ", SignedHeaders=" ++ signed_headers ++
        lit ", Signature=" ++ sg).

(** [TencentTranslate._prepare_headers] *)
Definition _prepare_headers (self : TencentTranslate) (payload : str)
    (timestamp : Z) (date : str) : result (gmap (list N) (list N)) :=
  auth ← authorization self payload timestamp date;
  let headers : gmap (list N) (list N) :=
    <[lit "X-TC-Version" := version self]>
    (<[lit "X-TC-Timestamp" := str_of_int timestamp]>
    (<[lit "X-TC-Action" := action self]>
    (<[lit "Host" := host self]>
    (<[lit "Content-Type" := ct]>
    (<[lit "Authorization" := auth]> ∅))))) in
  let headers :=
    if truthy (region self) then <[lit "X-TC-Region" := region self]> headers
    else headers in
  let headers :=
    if truthy (token self) then <[lit "X-TC-Token" := token self]> headers
    else headers in
  mret headers.

(** ** Clock, network and log *)

Inductive level : Type := INFO | CRITICAL.

(** The object interpolated into a log message; its rendering is the
    logger's business. *)
Inductive interpolated : Type :=
| OfValue (v : pyval)
| OfException (e : exn).

(** The arguments of [httpx.post(url=..., headers=..., data=...)]. *)
Record request : Type := Request {
  req_url : str;
  req_headers : gmap (list N) (list N);
  req_data : str
}.

(** What the client uses of an [httpx.Response]: the outcome of
    [response.json()]. *)
Record response : Type := Response {
  resp_json : result pyval
}.

Inductive event : Type :=
| Posted (req : request)
| Logged (lvl : level) (text : str) (arg : interpolated).

(** The world a call runs in: how often the clock was read, and what was
    sent and logged so far, oldest first. *)
Record world : Type := World {
  clock_reads : nat;
  trace : list event
}.

Definition Eff (A : Type) : Type := world → result A * world.

#[global] Instance Eff_ret : MRet Eff := fun A a w => (Ok a, w).
#[global] Instance Eff_bind : MBind Eff := fun A B f m w =>
  match m w with
  | (Ok a, w') => f a w'
  | (Raise e, w') => (Raise e, w')
  end.

Definition lift {A : Type} (r : result A) : Eff A := fun w => (r, w).

Definition raise {A : Type} (e : exn) : Eff A := fun w => (Raise e, w).

Definition emit (ev : event) : Eff unit :=
  fun w => (Ok tt, World (clock_reads w) (trace w ++ [ev])).

(** [try: body  except Exception as e: handler(e)] *)
Definition try_except {A : Type} (body : Eff A) (handler : exn → Eff A) : Eff A :=
  fun w =>
    match body w with
    | (Raise e, w') =>
        if isinstance_Exception e then handler e w' else (Raise e, w')
    | returned => returned
    end.

Definition logger_info (text : str) (arg : interpolated) : Eff unit :=
  emit (Logged INFO text arg).

Definition logger_critical (text : str) (arg : interpolated) : Eff unit :=
  emit (Logged CRITICAL text arg).

(** The fallback [translate] returns when the field is absent. *)
Definition translation_failed : pyval := PStr (lit "Translation failed").

(** [translate]'s local [payload]. *)
Definition payload_of (self : TencentTranslate) (text : str) : str :=
  JSON.dumps
    (PDict [(lit "SourceText", PStr text);
            (lit "Source", PStr (source_lang self));
            (lit "Target", PStr (target_lang self));
            (lit "ProjectId", PInt 0)]).

Section Client.

(** [clock n] is the value of [int(time.time())] at the [n]-th reading of
    the clock; [network req] is what [httpx.post] does with [req]: it
    raises, or returns a response. *)
Variable clock : nat → Z.
Variable network : request → result response.

(** [int(time.time())] *)
Definition int_time_time : Eff Z :=
  fun w => (Ok (clock (clock_reads w)), World (S (clock_reads w)) (trace w)).

(** [httpx.post(url=url, headers=headers, data=data)] *)
Definition httpx_post (url : str) (headers : gmap (list N) (list N)) (data : str)
  : Eff response :=
  let req := Request url headers data in
  _ ← emit (Posted req);
  lift (network req).

(** [TencentTranslate.translate] *)
Definition translate (self : TencentTranslate) (text : str) : Eff pyval :=
  timestamp ← int_time_time;
  d ← lift (Calendar.fromtimestamp_utc timestamp);
  let date := Calendar.strftime_Ymd d in
  let payload := payload_of self text in
  headers ← lift (_prepare_headers self payload timestamp date);
  try_except
    (response ← httpx_post (lit "https://" ++ host self) headers payload;
     res ← lift (resp_json response);
     _ ← logger_info (lit "Request successful: ") (OfValue res);
     inner ← lift (py_get res (lit "Response") (PDict []));
     lift (py_get inner (lit "TargetText") translation_failed))
    (fun e =>
       _ ← logger_critical (lit "API call error: ") (OfException e);
       raise e).

End Client.

(** ** Definitions used to state the properties *)

(** A client that differs from [self] in token and region only. *)
Definition with_token_region (self : TencentTranslate) (tok reg : str)
  : TencentTranslate :=
  {| secret_id := secret_id self;
     secret_key := secret_key self;
     token := tok;
     region := reg;
     service := service self;
     host := host self;
     version := version self;
     action := action self;
     algorithm := algorithm self;
     source_lang := source_lang self;
     target_lang := target_lang self |}.

(** The [Authorization] entry of the outcome of [_prepare_headers]. *)
Definition authorization_header (r : result (gmap (list N) (list N)))
  : result (option (list N)) :=
  h ← r; mret (h !! lit "Authorization").

(** The value found in a parsed body by following member names from the
    top, if each step is an object that has the member. *)
Fixpoint json_path (path : list str) (v : pyval) : option pyval :=
  match path with
  | [] => Some v
  | k :: rest =>
      match v with
      | PDict items =>
          match dict_lookup k items with
          | Some x => json_path rest x
          | None => None
          end
      | _ => None
      end
  end.

Definition is_object (v : pyval) : bool :=
  match v with
  | PDict _ => true
  | _ => false
  end.

(** How a parsed body stands with respect to [Response.TargetText]. *)
Inductive body_shape : Type :=
| FieldPresent (x : pyval)   (** an object with the field, holding [x] *)
| FieldMissing               (** [Response] absent, or an object without [TargetText] *)
| NotAnObject.               (** the body, or its [Response], is not an object *)

Definition shape_of (v : pyval) : body_shape :=
  match v with
  | PDict items =>
      match dict_lookup (lit "Response") items with
      | None => FieldMissing
      | Some (PDict inner) =>
          match dict_lookup (lit "TargetText") inner with
          | Some x => FieldPresent x
          | None => FieldMissing
          end
      | Some _ => NotAnObject
      end
  | _ => NotAnObject
  end.

(** The signing steps as the specification words them (section 4.1,
    step 2, items 1 to 7), over the same hash primitives. *)
Module Reference.
Local Open Scope Z_scope.

Definition utf8 (s : str) : bytes := default [] (UTF8.encode_opt s).

Definition sha256_hex (s : str) : str := hex (SHA256.digest (utf8 s)).

Definition content_type : str := lit "application/json; charset=utf-8".

Definition header_list : str := lit "content-type;host;x-tc-action".

(** Item 1. *)
Definition canonical_headers (host action : str) : str :=
  join nl [lit "content-type:" ++ content_type;
           lit "host:" ++ host;
           lit "x-tc-action:" ++ lower action;
           lit ""].

(** Item 2. *)
Definition canonical_request (host action payload : str) : str :=
  join nl [lit "POST"; lit "/"; lit ""; canonical_headers host action;
           header_list; sha256_hex payload].

(** Item 3. *)
Definition credential_scope (date service : str) : str :=
  join (lit "/") [date; service; lit "tc3_request"].

(** Item 4. *)
Definition string_to_sign (algorithm : str) (timestamp : Z) (scope request : str)
  : str :=
  join nl [algorithm; str_of_int timestamp; scope; sha256_hex request].

(** Item 5. *)
Definition signing_key (secret_key date service : str) : bytes :=
  let k1 := HMAC.digest (utf8 (lit "TC3" ++ secret_key)) (utf8 date) in
  let k2 := HMAC.digest k1 (utf8 service) in
  let k3 := HMAC.digest k2 (utf8 (lit "tc3_request")) in
  k3.

(** Item 6. *)
Definition final_signature (k3 : bytes) (to_sign : str) : str :=
  hex (HMAC.digest k3 (utf8 to_sign)).

(** Item 7. *)
Definition authorization_value (algorithm secret_id scope sig : str) : str :=
  algorithm ++ lit " Credential=" ++ secret_id ++ lit "/" ++ scope ++
  lit ", SignedHeaders=" ++ header_list ++ lit ", Signature=" ++ sig.

(** Days from 1970-01-01 to the civil date [y]-[m]-[d], by counting
    400-year eras from a year that starts in March. *)
Definition days_from_civil (y m d : Z) : Z :=
  let y := if m <=? 2 then y - 1 else y in
  let era := y / 400 in
  let yoe := y - era * 400 in
  let mp := if 2 <? m then m - 3 else m + 9 in
  let doy := (153 * mp + 2) / 5 + d - 1 in
  let doe := yoe * 365 + yoe / 4 - yoe / 100 + doy in
  era * 146097 + doe - 719468.

(** Whether instant [t] falls on the UTC day [y]-[m]-[d]. *)
Definition on_utc_day (t y m d : Z) : bool :=
  let start := 86400 * days_from_civil y m d in
  (start <=? t) && (t <? start + 86400).

End Reference.

(** ** Sample inputs *)

(** The client of the round-trip scenario, other arguments at their
    defaults. *)
Definition sample_client : TencentTranslate :=
  __init__ (lit "AKID") (lit "secret")
    default_token default_region default_source_lang default_target_lang.

Definition sample_timestamp : Z := 1700000000.
Definition sample_date : str := lit "2023-11-14".

(** The payload of the round-trip scenario; 34 is the double quote. *)
Definition quoted (s : string) : str := [34%N] ++ lit s ++ [34%N].
Definition sample_payload : str :=
  lit "{" ++ quoted "SourceText" ++ lit ":" ++ quoted "hello" ++ lit "," ++
  quoted "Source" ++ lit ":" ++ quoted "zh" ++ lit "," ++
  quoted "Target" ++ lit ":" ++ quoted "ja" ++ lit "," ++
  quoted "ProjectId" ++ lit ":0}".

Definition sample_clock : nat → Z := fun _ => sample_timestamp.
Definition start_world : world := World 0 [].

(** Networks that raise, and that answer with a given parsed body. *)
Definition connect_error : exn :=
  Foreign "httpx.ConnectError" true (lit "connection refused").
Definition decode_error : exn :=
  Foreign "json.JSONDecodeError" true (lit "Expecting value").
Definition failing_network : request → result response :=
  fun _ => Raise connect_error.
Definition garbled_network : request → result response :=
  fun _ => Ok (Response (Raise decode_error)).
Definition answering (body : pyval) : request → result response :=
  fun _ => Ok (Response (Ok body)).

Definition body_without_response : pyval :=
  PDict [(lit "Error", PStr (lit "denied"))].
Definition body_null_response : pyval :=
  PDict [(lit "Response", PNone)].
Definition body_text_response : pyval :=
  PDict [(lit "Response", PStr (lit "denied"))].
Definition body_translated : pyval :=
  PDict [(lit "Response", PDict [(lit "TargetText", PStr (lit "konnichiwa"))])].

(** The request [translate] sends for the sample client and text
    [hello] at the sample instant. *)
Definition sample_text : str := lit "hello".
Definition sample_translate_authorization : str :=
  lit "TC3-HMAC-SHA256 Credential=AKID/2023-11-14/tmt/tc3_request, " ++
  lit "SignedHeaders=content-type;host;x-tc-action, Signature=" ++
  lit "a54586a58ee6641225adf61927c236b125d9d0302f4dc3a8647869f9e648b613".
Definition sample_headers : gmap (list N) (list N) :=
  <[lit "X-TC-Region" := lit "ap-guangzhou"]>
  (<[lit "X-TC-Version" := lit "2018-03-21"]>
  (<[lit "X-TC-Timestamp" := lit "1700000000"]>
  (<[lit "X-TC-Action" := lit "TextTranslate"]>
  (<[lit "Host" := lit "tmt.tencentcloudapi.com"]>
  (<[lit "Content-Type" := lit "application/json; charset=utf-8"]>
  (<[lit "Authorization" := sample_translate_authorization]> ∅)))))).
Definition sample_request : request :=
  Request (lit "https://" ++ host sample_client) sample_headers
          (payload_of sample_client sample_text).

(** The values the round-trip scenario expects at the sample inputs. *)
Definition sample_canonical_request : str :=
  lit "POST" ++ nl ++
  lit "/" ++ nl ++
  nl ++
  lit "content-type:application/json; charset=utf-8" ++ nl ++
  lit "host:tmt.tencentcloudapi.com" ++ nl ++
  lit "x-tc-action:texttranslate" ++ nl ++
  nl ++
  lit "content-type;host;x-tc-action" ++ nl ++
  lit "f72bce2e49d5e58304aa27d083510981857e347b052c326ef5baa14085ad10ff".

Definition sample_string_to_sign : str :=
  lit "TC3-HMAC-SHA256" ++ nl ++
  lit "1700000000" ++ nl ++
  lit "2023-11-14/tmt/tc3_request" ++ nl ++
  lit "6d6de71e3e7a9c76d431e6abe000d2c20fa41aa999ec956c286ebe771123fb2c".

Definition sample_signature : str :=
  lit "1c3417d59fa54426aba40575a6d02b8adc20ed702192c56d5ea9bfccbacff02a".

Definition sample_authorization : str :=
  lit "TC3-HMAC-SHA256 Credential=AKID/2023-11-14/tmt/tc3_request, " ++
  lit "SignedHeaders=content-type;host;x-tc-action, Signature=" ++
  sample_signature.

(** The bytes of an ASCII literal. *)
Definition ascii_bytes (s : string) : bytes := list_byte_of_string s.

(** The digits a lowercase hexadecimal rendering uses. *)
Definition lowercase_hex_digit (c : N) : bool :=
  ((48 <=? c) && (c <=? 57) || (97 <=? c) && (c <=? 102))%N.

(** ** Further definitions used to state properties *)

(** Whether every text that [_prepare_headers] encodes has UTF-8 bytes. *)
Definition signing_texts_encodable (self : TencentTranslate) (payload date : list N)
  : bool :=
  UTF8.encodable payload && UTF8.encodable (host self) &&
  UTF8.encodable (lower (action self)) && UTF8.encodable (secret_key self) &&
  UTF8.encodable date && UTF8.encodable (service self) &&
  UTF8.encodable (algorithm self).

(** The header names [_prepare_headers] uses for [self]. *)
Definition header_names (self : TencentTranslate) : gset (list N) :=
  {[lit "Authorization"; lit "Content-Type"; lit "Host";
    lit "X-TC-Action"; lit "X-TC-Timestamp"; lit "X-TC-Version"]}
  ∪ (if truthy (region self) then {[lit "X-TC-Region"]} else ∅)
  ∪ (if truthy (token self) then {[lit "X-TC-Token"]} else ∅).

(** A client whose secret key holds a lone surrogate, and an exception
    outside [Exception]. *)
Definition surrogate_key_client : TencentTranslate :=
  __init__ (lit "AKID") [0xd800%N]
    default_token default_region default_source_lang default_target_lang.
Definition interrupt : exn := Foreign "KeyboardInterrupt" false (lit "").
Definition interrupted_network : request → result response :=
  fun _ => Raise interrupt.

(** Whether every character of [s] is printable ASCII (space to tilde). *)
Definition printable_ascii (s : list N) : bool :=
  forallb (fun c => (32 <=? c) && (c <=? 126))%N s.

(** * Properties *)

#[global] Arguments SHA256.digest : simpl never.
#[global] Arguments HMAC.digest : simpl never.
#[global] Arguments HMAC.hexdigest : simpl never.
#[global] Arguments sha256_hexdigest : simpl never.
#[global] Arguments hex : simpl never.
#[global] Arguments str_of_int : simpl never.

(** ** The hash primitives on published test vectors

    The constants of FIPS 180-4, its example messages, and RFC 4231 test
    cases 1, 2 and 6. *)

Example round_constants_from_primes :
  SHA256.round_constants = map SHA256.frac_cbrt SHA256.primes ∧
  length SHA256.round_constants = 64 ∧
  head SHA256.round_constants = Some 0x428a2f98%N ∧
  last SHA256.round_constants = Some 0xc67178f2%N.
Proof. do 3 (split; [vm_compute; reflexivity|]). vm_compute. reflexivity. Qed.

Example initial_hash_from_primes :
  SHA256.initial_hash =
    SHA256.regs_of_list (map SHA256.frac_sqrt (take 8 SHA256.primes)) ∧
  SHA256.ra SHA256.initial_hash = 0x6a09e667%N ∧
  SHA256.rh SHA256.initial_hash = 0x5be0cd19%N.
Proof. do 2 (split; [vm_compute; reflexivity|]). vm_compute. reflexivity. Qed.

Example sha256_empty :
  sha256_hexdigest [] =
  lit "e3b0c44298fc1c149afbf4c8996fb92427ae41e4649b934ca495991b7852b855".
Proof. vm_compute. reflexivity. Qed.

Example sha256_abc :
  sha256_hexdigest (ascii_bytes "abc") =
  lit "ba7816bf8f01cfea414140de5dae2223b00361a396177a9cb410ff61f20015ad".
Proof. vm_compute. reflexivity. Qed.

Example sha256_two_blocks :
  sha256_hexdigest
    (ascii_bytes "abcdbcdecdefdefgefghfghighijhijkijkljklmklmnlmnomnopnopq") =
  lit "248d6a61d20638b8e5c026930c3e6039a33ce45964ff2167f6ecedd419db06c1".
Proof. vm_compute. reflexivity. Qed.

Example hmac_rfc4231_case1 :
  HMAC.hexdigest (repeat x0b 20) (ascii_bytes "Hi There") =
  lit "b0344c61d8db38535ca8afceaf0bf12b881dc200c9833da726e9376c2e32cff7".
Proof. vm_compute. reflexivity. Qed.

Example hmac_rfc4231_case2 :
  HMAC.hexdigest (ascii_bytes "Jefe") (ascii_bytes "what do ya want for nothing?") =
  lit "5bdcc146bf60754e6a042426089575c75a003f089d2739839dec58b964ec3843".
Proof. vm_compute. reflexivity. Qed.

(** A key longer than one block is hashed first (RFC 4231 test case 6). *)
Example hmac_rfc4231_case6 :
  HMAC.hexdigest (repeat xaa 131)
    (ascii_bytes "Test Using Larger Than Block-Size Key - Hash Key First") =
  lit "60e431591ee0b67f0d8a26aacbf5b77f8e0bc6213728c5140546040f0ee37f54".
Proof. vm_compute. reflexivity. Qed.

(** ** The calendar on known dates *)

Example utc_dates :
  map (fun t => d ← Calendar.fromtimestamp_utc t; mret (Calendar.strftime_Ymd d))
      [0; 951782400; 1709251199; 1709251200; 253402300799; 253402300800; -1]%Z =
  [Ok (lit "1970-01-01"); Ok (lit "2000-02-29"); Ok (lit "2024-02-29");
   Ok (lit "2024-03-01"); Ok (lit "9999-12-31"); Raise TimestampOutOfRange;
   Ok (lit "1969-12-31")].
Proof. vm_compute. reflexivity. Qed.

(** ** Decimal rendering *)

Example str_of_int_samples :
  str_of_int 0 = lit "0" ∧ str_of_int 1700000000 = lit "1700000000" ∧
  str_of_int (-12) = lit "-12".
Proof. do 2 (split; [vm_compute; reflexivity|]). vm_compute. reflexivity. Qed.

(** ** The result monad *)

Lemma bind_Ok {A B : Type} (a : A) (f : A → result B) : (Ok a ≫= f) = f a.
Proof. reflexivity. Qed.

Lemma bind_Raise {A B : Type} (e : exn) (f : A → result B) :
  (Raise e ≫= f) = Raise e.
Proof. reflexivity. Qed.

(** ** UTF-8 encoding *)

Lemma encode_opt_app (a b : list N) :
  UTF8.encode_opt (a ++ b) =
  match UTF8.encode_opt a, UTF8.encode_opt b with
  | Some x, Some y => Some (x ++ y)
  | _, _ => None
  end.
Proof.
  induction a as [|c a IH]; simpl.
  - destruct (UTF8.encode_opt b); reflexivity.
  - rewrite IH. destruct (UTF8.encode_char c) as [cb|]; [|reflexivity].
    destruct (UTF8.encode_opt a) as [x|]; [|reflexivity].
    destruct (UTF8.encode_opt b) as [y|]; [|reflexivity].
    by rewrite app_assoc.
Qed.

Lemma encode_utf8_Some (s : list N) (b : list byte) :
  UTF8.encode_opt s = Some b → encode_utf8 s = Ok b.
Proof. unfold encode_utf8. by intros ->. Qed.

Lemma encodable_app (a b : list N) :
  UTF8.encodable (a ++ b) = UTF8.encodable a && UTF8.encodable b.
Proof.
  unfold UTF8.encodable. rewrite encode_opt_app.
  destruct (UTF8.encode_opt a), (UTF8.encode_opt b); reflexivity.
Qed.

Lemma encodable_total (s : list N) :
  UTF8.encodable s = true → ∃ b, encode_utf8 s = Ok b.
Proof.
  unfold UTF8.encodable, encode_utf8.
  destruct (UTF8.encode_opt s) as [b|]; [eauto | discriminate].
Qed.

Lemma ascii_only_app (a b : list N) :
  UTF8.ascii_only (a ++ b) = UTF8.ascii_only a && UTF8.ascii_only b.
Proof. apply forallb_app. Qed.

Lemma encode_opt_ascii (s : list N) :
  UTF8.ascii_only s = true → UTF8.encode_opt s = Some (map byte_of_N s).
Proof.
  induction s as [|c s IH]; [reflexivity|].
  simpl. intros [Hc Hs]%andb_true_iff.
  unfold UTF8.encode_char. rewrite Hc, (IH Hs). reflexivity.
Qed.

Lemma ascii_encodable (s : list N) :
  UTF8.ascii_only s = true → UTF8.encodable s = true.
Proof. intros H. unfold UTF8.encodable. by rewrite (encode_opt_ascii s H). Qed.

Lemma ascii_only_hex (bs : list byte) : UTF8.ascii_only (hex bs) = true.
Proof.
  induction bs as [|b bs IH]; [reflexivity|].
  change (hex (b :: bs)) with (hex_of_byte b ++ hex bs).
  rewrite ascii_only_app, IH. by destruct b.
Qed.

Lemma ascii_only_uint (u : Decimal.uint) :
  UTF8.ascii_only (lit (NilEmpty.string_of_uint u)) = true.
Proof. induction u; simpl; try reflexivity; exact IHu. Qed.

Lemma ascii_only_uint0 (u : Decimal.uint) :
  UTF8.ascii_only (lit (NilZero.string_of_uint u)) = true.
Proof.
  unfold NilZero.string_of_uint.
  destruct u; try reflexivity; apply ascii_only_uint.
Qed.

Lemma ascii_only_str_of_int (n : Z) : UTF8.ascii_only (str_of_int n) = true.
Proof.
  unfold str_of_int, NilZero.string_of_int.
  destruct (Z.to_int n) as [u|u]; [apply ascii_only_uint0|].
  change (UTF8.ascii_only (45%N :: lit (NilZero.string_of_uint u)) = true).
  simpl. apply ascii_only_uint0.
Qed.

Lemma ascii_only_repeat (c : N) (k : nat) :
  (c <? 0x80)%N = true → UTF8.ascii_only (repeat c k) = true.
Proof. intros Hc. induction k as [|k IH]; simpl; [reflexivity|]. by rewrite Hc, IH. Qed.

Lemma ascii_only_strftime (d : Calendar.date) :
  UTF8.ascii_only (Calendar.strftime_Ymd d) = true.
Proof.
  unfold Calendar.strftime_Ymd, Calendar.zero_fill.
  rewrite !ascii_only_app, !ascii_only_str_of_int, !ascii_only_repeat by reflexivity.
  reflexivity.
Qed.

(** What [json.dumps] writes for a string is ASCII whatever the string. *)

Lemma hex_digit_nibble (n : N) : (hex_digit (N.land n 15) <? 0x80)%N = true.
Proof.
  assert (N.land n 15 < 16)%N as H.
  { change 15%N with (N.ones 4). rewrite N.land_ones. by apply N.mod_lt. }
  unfold hex_digit. destruct (N.ltb_spec (N.land n 15) 10); apply N.ltb_lt; lia.
Qed.

Lemma ascii_only_u_escape (n : N) : UTF8.ascii_only (JSON.u_escape n) = true.
Proof.
  unfold JSON.u_escape, JSON.hex4. simpl. by rewrite !hex_digit_nibble.
Qed.

Lemma ascii_only_escape_char (c : N) : UTF8.ascii_only (JSON.escape_char c) = true.
Proof.
  unfold JSON.escape_char.
  repeat (case_match; [try reflexivity|]).
  - simpl. rewrite andb_true_r. apply N.ltb_lt.
    match goal with
    | H : (_ <=? _)%N && (_ <=? _)%N = true |- _ =>
        apply andb_true_iff in H as [_ H]; apply N.leb_le in H; lia
    end.
  - apply ascii_only_u_escape.
  - rewrite ascii_only_app, !ascii_only_u_escape. reflexivity.
Qed.

Lemma ascii_only_basestring (s : list N) :
  UTF8.ascii_only (JSON.encode_basestring_ascii s) = true.
Proof.
  unfold JSON.encode_basestring_ascii. rewrite !ascii_only_app.
  replace (UTF8.ascii_only (flat_map JSON.escape_char s)) with true; [reflexivity|].
  symmetry. induction s as [|c s IH]; [reflexivity|].
  change (flat_map JSON.escape_char (c :: s))
    with (JSON.escape_char c ++ flat_map JSON.escape_char s).
  by rewrite ascii_only_app, ascii_only_escape_char, IH.
Qed.

Lemma ascii_only_payload (self : TencentTranslate) (text : list N) :
  UTF8.ascii_only (payload_of self text) = true.
Proof.
  unfold payload_of. cbn [JSON.dumps].
  rewrite !ascii_only_app, !ascii_only_basestring, ascii_only_str_of_int.
  reflexivity.
Qed.

(** ** Hexadecimal digests *)

Lemma hex_lowercase (bs : list byte) : forallb lowercase_hex_digit (hex bs) = true.
Proof.
  induction bs as [|b bs IH]; [reflexivity|].
  change (hex (b :: bs)) with (hex_of_byte b ++ hex bs).
  rewrite forallb_app, IH. by destruct b.
Qed.

Lemma hex_length (bs : list byte) : length (hex bs) = 2 * length bs.
Proof.
  induction bs as [|b bs IH]; [reflexivity|].
  change (hex (b :: bs)) with (hex_of_byte b ++ hex bs).
  rewrite length_app, IH. simpl. lia.
Qed.

Lemma be_bytes_length (k : nat) (n : N) : length (SHA256.be_bytes k n) = k.
Proof. induction k as [|k IH]; simpl; [reflexivity | by rewrite IH]. Qed.

Lemma sha256_digest_length (msg : list byte) : length (SHA256.digest msg) = 32.
Proof.
  unfold SHA256.digest. cbv zeta.
  cbn [flat_map]. rewrite !length_app, !be_bytes_length. reflexivity.
Qed.

(** ** Signing *)

Lemma sign_Ok (key : list byte) (msg : list N) (m : list byte) :
  UTF8.encode_opt msg = Some m → sign key msg = Ok (HMAC.digest key m).
Proof. intros H. unfold sign. by rewrite (encode_utf8_Some _ _ H). Qed.

(** C1: for every secret key, date and service name that have UTF-8
    bytes, [create_signature] chains three HMAC-SHA256 operations, each
    raw digest keying the next: k1 is keyed with the bytes of "TC3"
    followed by the secret key and authenticates the date, k2 is keyed
    with k1 and authenticates the service name, k3 is keyed with k2 and
    authenticates "tc3_request"; the method returns k3. *)
Theorem create_signature_chain
    (self : TencentTranslate) (date service : list N) (skb db sb : list byte) :
  UTF8.encode_opt (secret_key self) = Some skb →
  UTF8.encode_opt date = Some db →
  UTF8.encode_opt service = Some sb →
  let k1 := HMAC.digest (ascii_bytes "TC3" ++ skb) db in
  let k2 := HMAC.digest k1 sb in
  let k3 := HMAC.digest k2 (ascii_bytes "tc3_request") in
  encode_utf8 (lit "TC3" ++ secret_key self) = Ok (ascii_bytes "TC3" ++ skb) ∧
  sign (ascii_bytes "TC3" ++ skb) date = Ok k1 ∧
  sign k1 service = Ok k2 ∧
  sign k2 (lit "tc3_request") = Ok k3 ∧
  create_signature self date service = Ok k3.
Proof.
  intros Hkey Hdate Hservice k1 k2 k3.
  assert (encode_utf8 (lit "TC3" ++ secret_key self) = Ok (ascii_bytes "TC3" ++ skb))
    as Hk0.
  { apply encode_utf8_Some. rewrite encode_opt_app, Hkey. reflexivity. }
  assert (sign (ascii_bytes "TC3" ++ skb) date = Ok k1) as H1
    by exact (sign_Ok _ _ _ Hdate).
  assert (sign k1 service = Ok k2) as H2 by exact (sign_Ok _ _ _ Hservice).
  assert (sign k2 (lit "tc3_request") = Ok k3) as H3
    by (apply sign_Ok; reflexivity).
  repeat split; try assumption.
  unfold create_signature.
  rewrite Hk0, bind_Ok, H1, bind_Ok, H2, bind_Ok, H3, bind_Ok. reflexivity.
Qed.

Lemma create_signature_chain_witness :
  UTF8.encode_opt (secret_key sample_client) = Some (ascii_bytes "secret") ∧
  UTF8.encode_opt sample_date = Some (ascii_bytes "2023-11-14") ∧
  UTF8.encode_opt (lit "tmt") = Some (ascii_bytes "tmt") ∧
  create_signature sample_client sample_date (lit "tmt") =
  Ok (HMAC.digest
        (HMAC.digest
           (HMAC.digest (ascii_bytes "TC3" ++ ascii_bytes "secret")
              (ascii_bytes "2023-11-14"))
           (ascii_bytes "tmt"))
        (ascii_bytes "tc3_request")).
Proof.
  do 3 (split; [reflexivity|]).
  apply (create_signature_chain sample_client sample_date (lit "tmt")
           (ascii_bytes "secret") (ascii_bytes "2023-11-14") (ascii_bytes "tmt"));
    reflexivity.
Defined.

(** C2: for every payload that has UTF-8 bytes, the canonical request is
    the newline-joined sequence of "POST", the path "/", the empty query
    string, the canonical headers string, the signed-headers list and the
    lowercase hex SHA-256 digest (64 digits) of the payload bytes; and
    what is hashed for signing is the SHA-256 digest of the bytes of that
    very string. *)
Theorem canonical_request_layout
    (self : TencentTranslate) (payload : list N) (pb : list byte) :
  UTF8.encode_opt payload = Some pb →
  let digest := hex (SHA256.digest pb) in
  let request :=
    join nl [lit "POST"; lit "/"; lit "";
             lit "content-type:application/json; charset=utf-8" ++ nl ++
             lit "host:" ++ host self ++ nl ++
             lit "x-tc-action:" ++ lower (action self) ++ nl;
             lit "content-type;host;x-tc-action";
             digest] in
  canonical_request self payload = Ok request ∧
  forallb lowercase_hex_digit digest = true ∧
  length digest = 64 ∧
  hashed_canonical_request self payload =
    (b ← encode_utf8 request; mret (hex (SHA256.digest b))).
Proof.
  intros Hp digest request.
  assert (canonical_request self payload = Ok request) as Hcr.
  { unfold canonical_request, hashed_request_payload.
    rewrite (encode_utf8_Some _ _ Hp), !bind_Ok. reflexivity. }
  split; [exact Hcr|]. split; [apply hex_lowercase|]. split.
  - unfold digest. rewrite hex_length, sha256_digest_length. reflexivity.
  - unfold hashed_canonical_request. rewrite Hcr, bind_Ok. reflexivity.
Qed.

Lemma canonical_request_layout_witness :
  UTF8.encode_opt sample_payload = Some (map byte_of_N sample_payload) ∧
  canonical_request sample_client sample_payload = Ok sample_canonical_request.
Proof.
  split; [reflexivity|].
  destruct (canonical_request_layout sample_client sample_payload
              (map byte_of_N sample_payload)) as [H _]; [reflexivity|].
  rewrite H. vm_compute. reflexivity.
Defined.

(** The [Authorization] entry survives the later insertions. *)
Ltac lookup_header :=
  repeat first
    [ rewrite lookup_insert_eq
    | rewrite lookup_insert_ne by (vm_compute; discriminate)
    | rewrite lookup_empty ].

Lemma prepare_headers_Ok
    (self : TencentTranslate) (payload : list N) (timestamp : Z) (date auth : list N) :
  authorization self payload timestamp date = Ok auth →
  ∃ h : gmap (list N) (list N),
    _prepare_headers self payload timestamp date = Ok h ∧
    h !! lit "Authorization" = Some auth ∧
    h !! lit "Content-Type" = Some ct ∧
    h !! lit "Host" = Some (host self) ∧
    h !! lit "X-TC-Action" = Some (action self) ∧
    h !! lit "X-TC-Timestamp" = Some (str_of_int timestamp) ∧
    h !! lit "X-TC-Version" = Some (version self) ∧
    h !! lit "X-TC-Region" =
      (if truthy (region self) then Some (region self) else None) ∧
    h !! lit "X-TC-Token" =
      (if truthy (token self) then Some (token self) else None).
Proof.
  intros Hauth. unfold _prepare_headers. rewrite Hauth, bind_Ok.
  eexists. split; [reflexivity|].
  destruct (truthy (region self)), (truthy (token self)); cbv zeta;
    repeat split; lookup_header; reflexivity.
Qed.

Lemma prepare_headers_Raise
    (self : TencentTranslate) (payload : list N) (timestamp : Z) (date : list N)
    (e : exn) :
  authorization self payload timestamp date = Raise e →
  _prepare_headers self payload timestamp date = Raise e.
Proof. intros H. unfold _prepare_headers. by rewrite H. Qed.

Lemma authorization_header_spec
    (self : TencentTranslate) (payload : list N) (timestamp : Z) (date : list N) :
  authorization_header (_prepare_headers self payload timestamp date) =
  (a ← authorization self payload timestamp date; mret (Some a)).
Proof.
  destruct (authorization self payload timestamp date) as [auth|e] eqn:Hauth.
  - destruct (prepare_headers_Ok _ _ _ _ _ Hauth) as (h & Hh & Ha & _).
    rewrite Hh. unfold authorization_header. rewrite !bind_Ok. by rewrite Ha.
  - by rewrite (prepare_headers_Raise _ _ _ _ _ Hauth).
Qed.

(** C3: the string to sign is the newline-joined sequence of the
    algorithm identifier, the decimal timestamp, the credential scope
    date/service/tc3_request and the hex SHA-256 digest of the canonical
    request; the [Authorization] value is the algorithm, the credential
    (secret id and scope), the signed-headers list and the hex
    HMAC-SHA256 of the string to sign under the derived key. *)
Theorem string_to_sign_and_authorization
    (self : TencentTranslate) (payload : list N) (timestamp : Z) (date : list N)
    (request : list N) (rb k3 sb : list byte) :
  canonical_request self payload = Ok request →
  UTF8.encode_opt request = Some rb →
  create_signature self date (service self) = Ok k3 →
  let scope := date ++ lit "/" ++ service self ++ lit "/tc3_request" in
  let to_sign :=
    join nl [algorithm self; str_of_int timestamp; scope; hex (SHA256.digest rb)] in
  UTF8.encode_opt to_sign = Some sb →
  let sig := hex (HMAC.digest k3 sb) in
  let value :=
    algorithm self ++ lit " Credential=" ++ secret_id self ++ lit "/" ++ scope ++
    lit ", SignedHeaders=" ++ lit "content-type;host;x-tc-action" ++
    lit ", Signature=" ++ sig in
  string_to_sign self payload timestamp date = Ok to_sign ∧
  signature self payload timestamp date = Ok sig ∧
  authorization self payload timestamp date = Ok value ∧
  authorization_header (_prepare_headers self payload timestamp date) =
    Ok (Some value).
Proof.
  intros Hcr Hrb Hk3 scope to_sign Hsb sig value.
  assert (string_to_sign self payload timestamp date = Ok to_sign) as Hsts.
  { unfold string_to_sign, hashed_canonical_request.
    rewrite Hcr, bind_Ok, (encode_utf8_Some _ _ Hrb), !bind_Ok. reflexivity. }
  assert (signature self payload timestamp date = Ok sig) as Hsig.
  { unfold signature.
    rewrite Hsts, bind_Ok, Hk3, bind_Ok, (encode_utf8_Some _ _ Hsb), bind_Ok.
    reflexivity. }
  assert (authorization self payload timestamp date = Ok value) as Hauth.
  { unfold authorization. rewrite Hsig, bind_Ok. unfold value, scope, credential_scope.
    rewrite <- !app_assoc. reflexivity. }
  repeat split; try assumption.
  rewrite authorization_header_spec, Hauth. reflexivity.
Qed.

Ltac solve_encodable :=
  cbn [join];
  repeat (rewrite encodable_app; apply andb_true_iff; split);
  first
    [ assumption
    | apply ascii_encodable;
      first [ apply ascii_only_hex | apply ascii_only_str_of_int | reflexivity ] ].

(** Signing succeeds as soon as the texts it encodes have UTF-8 bytes. *)
Lemma authorization_total
    (self : TencentTranslate) (payload : list N) (timestamp : Z) (date : list N) :
  UTF8.encodable payload = true →
  UTF8.encodable date = true →
  UTF8.encodable (secret_key self) = true →
  UTF8.encodable (host self) = true →
  UTF8.encodable (lower (action self)) = true →
  UTF8.encodable (service self) = true →
  UTF8.encodable (algorithm self) = true →
  ∃ to_sign sig,
    string_to_sign self payload timestamp date = Ok to_sign ∧
    signature self payload timestamp date = Ok sig ∧
    authorization self payload timestamp date =
      Ok (algorithm self ++ lit " Credential=" ++ secret_id self ++ lit "/" ++
          credential_scope self date ++ lit ", SignedHeaders=" ++ signed_headers ++
          lit ", Signature=" ++ sig).
Proof.
  intros Hp Hd Hk Hh Ha Hs Hal.
  destruct (encodable_total payload Hp) as [pb Hpb].
  assert (∃ k3, create_signature self date (service self) = Ok k3) as [k3 Hk3].
  { unfold create_signature, sign.
    destruct (encodable_total (lit "TC3" ++ secret_key self)) as [b0 ->];
      [solve_encodable|].
    destruct (encodable_total date Hd) as [b1 ->].
    destruct (encodable_total (service self) Hs) as [b2 ->].
    rewrite !bind_Ok. eexists. reflexivity. }
  unfold authorization, signature, string_to_sign, hashed_canonical_request,
    canonical_request, hashed_request_payload.
  rewrite Hpb, !bind_Ok.
  match goal with
  | |- context [encode_utf8 ?r] =>
      destruct (encodable_total r) as [rb ->];
        [unfold canonical_headers, ct, signed_headers, canonical_uri,
           canonical_querystring; solve_encodable|]
  end.
  rewrite !bind_Ok, Hk3, !bind_Ok.
  match goal with
  | |- context [encode_utf8 ?r] =>
      destruct (encodable_total r) as [sb ->]; [unfold credential_scope; solve_encodable|]
  end.
  rewrite !bind_Ok. do 2 eexists. repeat split; reflexivity.
Qed.

Lemma reference_utf8 (s : list N) (b : list byte) :
  UTF8.encode_opt s = Some b → Reference.utf8 s = b.
Proof. unfold Reference.utf8. by intros ->. Qed.

Lemma encodable_bytes (s : list N) :
  UTF8.encodable s = true → UTF8.encode_opt s = Some (Reference.utf8 s).
Proof.
  unfold UTF8.encodable, Reference.utf8.
  destruct (UTF8.encode_opt s); [reflexivity | discriminate].
Qed.

(** On texts that have UTF-8 bytes the module computes what the
    reference steps compute, whatever the client and the inputs. *)
Lemma signing_agrees_with_reference
    (self : TencentTranslate) (payload : list N) (timestamp : Z) (date : list N) :
  UTF8.encodable payload = true →
  UTF8.encodable date = true →
  UTF8.encodable (secret_key self) = true →
  UTF8.encodable (host self) = true →
  UTF8.encodable (lower (action self)) = true →
  UTF8.encodable (service self) = true →
  UTF8.encodable (algorithm self) = true →
  let scope := Reference.credential_scope date (service self) in
  let request := Reference.canonical_request (host self) (action self) payload in
  let to_sign := Reference.string_to_sign (algorithm self) timestamp scope request in
  let key := Reference.signing_key (secret_key self) date (service self) in
  let sig := Reference.final_signature key to_sign in
  canonical_request self payload = Ok request ∧
  string_to_sign self payload timestamp date = Ok to_sign ∧
  create_signature self date (service self) = Ok key ∧
  signature self payload timestamp date = Ok sig ∧
  authorization self payload timestamp date =
    Ok (Reference.authorization_value (algorithm self) (secret_id self) scope sig).
Proof.
  intros Hp Hd Hk Hh Ha Hs Hal scope request to_sign key sig.
  assert (canonical_request self payload = Ok request) as Hcr.
  { unfold canonical_request, hashed_request_payload.
    rewrite (encode_utf8_Some _ _ (encodable_bytes _ Hp)), !bind_Ok.
    unfold request, Reference.canonical_request, Reference.canonical_headers,
      canonical_headers, Reference.sha256_hex, sha256_hexdigest.
    cbn [join]. rewrite <- !app_assoc. reflexivity. }
  assert (UTF8.encodable request = true) as Hreq.
  { unfold request, Reference.canonical_request, Reference.canonical_headers,
      Reference.sha256_hex, Reference.content_type, Reference.header_list.
    solve_encodable. }
  assert (string_to_sign self payload timestamp date = Ok to_sign) as Hsts.
  { unfold string_to_sign, hashed_canonical_request.
    rewrite Hcr, bind_Ok, (encode_utf8_Some _ _ (encodable_bytes _ Hreq)), !bind_Ok.
    unfold to_sign, Reference.string_to_sign, scope, Reference.credential_scope,
      credential_scope, Reference.sha256_hex, sha256_hexdigest.
    cbn [join]. rewrite <- !app_assoc. reflexivity. }
  assert (create_signature self date (service self) = Ok key) as Hkey.
  { unfold create_signature, sign.
    assert (UTF8.encodable (lit "TC3" ++ secret_key self) = true) as Hk0
      by solve_encodable.
    rewrite (encode_utf8_Some _ _ (encodable_bytes _ Hk0)), bind_Ok.
    rewrite (encode_utf8_Some _ _ (encodable_bytes _ Hd)), !bind_Ok.
    rewrite (encode_utf8_Some _ _ (encodable_bytes _ Hs)), !bind_Ok.
    reflexivity. }
  assert (UTF8.encodable to_sign = true) as Hts.
  { unfold to_sign, Reference.string_to_sign, scope, Reference.credential_scope,
      Reference.sha256_hex.
    solve_encodable. }
  assert (signature self payload timestamp date = Ok sig) as Hsig.
  { unfold signature.
    rewrite Hsts, bind_Ok, Hkey, bind_Ok,
      (encode_utf8_Some _ _ (encodable_bytes _ Hts)), bind_Ok.
    reflexivity. }
  do 4 (split; [assumption|]).
  unfold authorization. rewrite Hsig, bind_Ok.
  unfold Reference.authorization_value, scope, Reference.credential_scope,
    credential_scope.
  cbn [join]. rewrite <- !app_assoc. reflexivity.
Qed.

Lemma string_to_sign_and_authorization_witness :
  canonical_request sample_client sample_payload = Ok sample_canonical_request ∧
  UTF8.encode_opt sample_canonical_request =
    Some (map byte_of_N sample_canonical_request) ∧
  create_signature sample_client sample_date (service sample_client) =
    Ok (Reference.signing_key (lit "secret") sample_date (lit "tmt")) ∧
  UTF8.encode_opt sample_string_to_sign =
    Some (map byte_of_N sample_string_to_sign) ∧
  string_to_sign sample_client sample_payload sample_timestamp sample_date =
    Ok sample_string_to_sign ∧
  authorization sample_client sample_payload sample_timestamp sample_date =
    Ok sample_authorization.
Proof.
  assert (canonical_request sample_client sample_payload = Ok sample_canonical_request)
    as H1 by (vm_compute; reflexivity).
  assert (UTF8.encode_opt sample_canonical_request =
            Some (map byte_of_N sample_canonical_request))
    as H2 by (vm_compute; reflexivity).
  assert (create_signature sample_client sample_date (service sample_client) =
            Ok (Reference.signing_key (lit "secret") sample_date (lit "tmt")))
    as H3 by (vm_compute; reflexivity).
  assert (UTF8.encode_opt sample_string_to_sign =
            Some (map byte_of_N sample_string_to_sign))
    as H4 by (vm_compute; reflexivity).
  do 4 (split; [assumption|]).
  destruct (string_to_sign_and_authorization sample_client sample_payload
              sample_timestamp sample_date sample_canonical_request
              (map byte_of_N sample_canonical_request)
              (Reference.signing_key (lit "secret") sample_date (lit "tmt"))
              (map byte_of_N sample_string_to_sign) H1 H2 H3)
    as (Ha & _ & Hb & _).
  - vm_compute. reflexivity.
  - split.
    + rewrite Ha. vm_compute. reflexivity.
    + rewrite Hb. vm_compute. reflexivity.
Defined.

(** C5: for secret id AKID, secret key secret, timestamp 1700000000 and
    the compact payload, the derived UTC date is 2023-11-14 (the instant
    does fall on that civil day), and the canonical request, the string
    to sign and the final hex signature of the module equal those of the
    reference steps, which are the expected literal values. *)
Theorem round_trip_scenario :
  let self := sample_client in
  let scope := Reference.credential_scope sample_date (service self) in
  let ref_request :=
    Reference.canonical_request (host self) (action self) sample_payload in
  let ref_to_sign :=
    Reference.string_to_sign (algorithm self) sample_timestamp scope ref_request in
  let ref_key := Reference.signing_key (secret_key self) sample_date (service self) in
  let ref_signature := Reference.final_signature ref_key ref_to_sign in
  (d ← Calendar.fromtimestamp_utc sample_timestamp;
   mret (Calendar.strftime_Ymd d)) = Ok sample_date ∧
  Reference.on_utc_day sample_timestamp 2023 11 14 = true ∧
  canonical_request self sample_payload = Ok ref_request ∧
  ref_request = sample_canonical_request ∧
  string_to_sign self sample_payload sample_timestamp sample_date = Ok ref_to_sign ∧
  ref_to_sign = sample_string_to_sign ∧
  create_signature self sample_date (service self) = Ok ref_key ∧
  signature self sample_payload sample_timestamp sample_date = Ok ref_signature ∧
  ref_signature = sample_signature ∧
  authorization_header
    (_prepare_headers self sample_payload sample_timestamp sample_date) =
    Ok (Some (Reference.authorization_value (algorithm self) (secret_id self)
                scope ref_signature)).
Proof.
  cbv zeta. rewrite authorization_header_spec.
  do 9 (split; [vm_compute; reflexivity|]).
  vm_compute. reflexivity.
Qed.

(** C10: the [Authorization] value does not depend on the session token
    or the region.  Changing both leaves the canonical request, the
    string to sign, the derived key, the signature and the
    [Authorization] entry of the headers as they were, raising included. *)
Theorem authorization_ignores_token_and_region
    (self : TencentTranslate) (tok reg : list N)
    (payload : list N) (timestamp : Z) (date : list N) :
  let other := with_token_region self tok reg in
  canonical_request other payload = canonical_request self payload ∧
  string_to_sign other payload timestamp date =
    string_to_sign self payload timestamp date ∧
  create_signature other date (service other) =
    create_signature self date (service self) ∧
  signature other payload timestamp date = signature self payload timestamp date ∧
  authorization_header (_prepare_headers other payload timestamp date) =
    authorization_header (_prepare_headers self payload timestamp date).
Proof.
  intros other. do 4 (split; [reflexivity|]).
  rewrite !authorization_header_spec. reflexivity.
Qed.

(** The two clients may still differ in the headers that carry the
    token and the region. *)
Example token_and_region_change_other_headers :
  let other := with_token_region sample_client (lit "session") (lit "") in
  ∃ h h' : gmap (list N) (list N),
    _prepare_headers sample_client sample_payload sample_timestamp sample_date = Ok h ∧
    _prepare_headers other sample_payload sample_timestamp sample_date = Ok h' ∧
    h !! lit "Authorization" = h' !! lit "Authorization" ∧
    h !! lit "X-TC-Region" = Some (lit "ap-guangzhou") ∧
    h' !! lit "X-TC-Region" = None ∧
    h !! lit "X-TC-Token" = None ∧
    h' !! lit "X-TC-Token" = Some (lit "session").
Proof.
  intros other.
  assert (authorization sample_client sample_payload sample_timestamp sample_date =
            Ok sample_authorization) as Ha by (vm_compute; reflexivity).
  assert (authorization other sample_payload sample_timestamp sample_date =
            Ok sample_authorization) as Ha' by (vm_compute; reflexivity).
  destruct (prepare_headers_Ok _ _ _ _ _ Ha) as (h & Hh & H1 & _ & _ & _ & _ & _ & H2 & H3).
  destruct (prepare_headers_Ok _ _ _ _ _ Ha') as (h' & Hh' & H1' & _ & _ & _ & _ & _ & H2' & H3').
  exists h, h'. rewrite H1, H1', H2, H2', H3, H3'.
  do 2 (split; [assumption|]). do 4 (split; [reflexivity|]). reflexivity.
Qed.

Lemma truthy_nonempty (s : list N) : truthy s = true ↔ s ≠ [].
Proof. destruct s; simpl; split; congruence. Qed.

(** C6: for every configuration whose secret key has UTF-8 bytes, and
    every payload and date that have, [_prepare_headers] returns a header
    map.  It holds [Authorization], [Content-Type], [Host], [X-TC-Action],
    [X-TC-Timestamp] (the decimal timestamp, the one in the string to
    sign) and [X-TC-Version]; it holds [X-TC-Region] exactly when the
    region is non-empty and [X-TC-Token] exactly when the token is
    non-empty, each with the configured value. *)
Theorem prepare_headers_entries
    (sid skey tok reg src tgt : list N)
    (payload : list N) (timestamp : Z) (date : list N) :
  UTF8.encodable skey = true →
  UTF8.encodable payload = true →
  UTF8.encodable date = true →
  let self := __init__ sid skey tok reg src tgt in
  ∃ (h : gmap (list N) (list N)) (auth digest : list N),
    _prepare_headers self payload timestamp date = Ok h ∧
    authorization self payload timestamp date = Ok auth ∧
    h !! lit "Authorization" = Some auth ∧
    h !! lit "Content-Type" = Some (lit "application/json; charset=utf-8") ∧
    h !! lit "Host" = Some (lit "tmt.tencentcloudapi.com") ∧
    h !! lit "X-TC-Action" = Some (lit "TextTranslate") ∧
    h !! lit "X-TC-Timestamp" = Some (str_of_int timestamp) ∧
    string_to_sign self payload timestamp date =
      Ok (join nl [lit "TC3-HMAC-SHA256"; str_of_int timestamp;
                   date ++ lit "/tmt/tc3_request"; digest]) ∧
    h !! lit "X-TC-Version" = Some (lit "2018-03-21") ∧
    (is_Some (h !! lit "X-TC-Region") ↔ reg ≠ []) ∧
    (reg ≠ [] → h !! lit "X-TC-Region" = Some reg) ∧
    (is_Some (h !! lit "X-TC-Token") ↔ tok ≠ []) ∧
    (tok ≠ [] → h !! lit "X-TC-Token" = Some tok).
Proof.
  intros Hk Hp Hd self.
  destruct (authorization_total self payload timestamp date)
    as (to_sign & sig & Hsts & _ & Hauth); try assumption; try reflexivity.
  destruct (prepare_headers_Ok _ _ _ _ _ Hauth)
    as (h & Hh & Ha & Hct & Hhost & Hact & Hts & Hver & Hreg & Htok).
  assert (∃ digest, to_sign =
            join nl [lit "TC3-HMAC-SHA256"; str_of_int timestamp;
                     date ++ lit "/tmt/tc3_request"; digest]) as [digest ->].
  { revert Hsts. unfold string_to_sign.
    destruct (hashed_canonical_request self payload) as [x|e]; [|discriminate].
    rewrite bind_Ok. intros [= <-]. exists x.
    unfold credential_scope. cbn [join]. rewrite <- !app_assoc. reflexivity. }
  eexists h, _, digest.
  split; [exact Hh|]. split; [exact Hauth|]. split; [exact Ha|].
  do 4 (split; [assumption|]). split; [exact Hsts|]. split; [assumption|].
  change (region self) with reg in Hreg. change (token self) with tok in Htok.
  rewrite Hreg, Htok.
  destruct reg as [|r reg'], tok as [|t tok']; simpl;
    repeat split; intros; try congruence; try (by eexists);
    match goal with H : is_Some None |- _ => by destruct H end.
Qed.

Lemma prepare_headers_entries_witness :
  UTF8.encodable (lit "secret") = true ∧
  UTF8.encodable sample_payload = true ∧
  UTF8.encodable sample_date = true ∧
  ∃ h : gmap (list N) (list N),
    _prepare_headers sample_client sample_payload sample_timestamp sample_date = Ok h ∧
    h !! lit "X-TC-Timestamp" = Some (str_of_int 1700000000) ∧
    h !! lit "X-TC-Region" = Some (lit "ap-guangzhou") ∧
    ¬ is_Some (h !! lit "X-TC-Token").
Proof.
  do 3 (split; [reflexivity|]).
  destruct (prepare_headers_entries (lit "AKID") (lit "secret") default_token
              default_region default_source_lang default_target_lang
              sample_payload sample_timestamp sample_date eq_refl eq_refl eq_refl)
    as (h & auth & digest & Hh & _ & _ & _ & _ & _ & Hts & _ & _ & _ & Hreg & Htok & _).
  exists h. split; [exact Hh|]. split; [exact Hts|].
  split; [apply Hreg; intros [=]|].
  intros Hsome. exact (proj1 Htok Hsome eq_refl).
Defined.

(** ** Runs of [translate] *)

#[global] Arguments payload_of : simpl never.

Ltac run_eff :=
  cbv beta iota zeta delta
    [translate mbind mret Eff_bind Eff_ret int_time_time lift raise emit
     try_except httpx_post logger_info logger_critical];
  cbn [clock_reads trace].

Section Runs.

Variable clock : nat → Z.
Variable network : request → result response.
Variable self : TencentTranslate.
Variable text : list N.
Variable w : world.

Local Abbreviation ts := (clock (clock_reads w)).
Local Abbreviation payload := (payload_of self text).
Local Abbreviation sent h := (Request (lit "https://" ++ host self) h payload).
Local Abbreviation after evs := (World (S (clock_reads w)) (trace w ++ evs)).

Lemma translate_date_raises (e : exn) :
  Calendar.fromtimestamp_utc ts = Raise e →
  translate clock network self text w = (Raise e, World (S (clock_reads w)) (trace w)).
Proof. intros Hd. run_eff. rewrite Hd. reflexivity. Qed.

Lemma translate_signing_raises (d : Calendar.date) (e : exn) :
  Calendar.fromtimestamp_utc ts = Ok d →
  _prepare_headers self payload ts (Calendar.strftime_Ymd d) = Raise e →
  translate clock network self text w = (Raise e, World (S (clock_reads w)) (trace w)).
Proof.
  intros Hd Hh. run_eff. rewrite Hd. run_eff.
  rewrite Hh. reflexivity.
Qed.

Section Sent.

Variable d : Calendar.date.
Variable h : gmap (list N) (list N).
Hypothesis Hdate : Calendar.fromtimestamp_utc ts = Ok d.
Hypothesis Hheaders :
  _prepare_headers self payload ts (Calendar.strftime_Ymd d) = Ok h.

Ltac start := run_eff; rewrite Hdate; run_eff; rewrite Hheaders; run_eff.

Ltac finish :=
  cbn [py_get dict_lookup default from_option id isinstance_Exception]; run_eff;
  rewrite <- ?app_assoc; reflexivity.

Lemma translate_post_raises (e : exn) :
  network (sent h) = Raise e →
  translate clock network self text w =
  if isinstance_Exception e
  then (Raise e,
        after [Posted (sent h);
               Logged CRITICAL (lit "API call error: ") (OfException e)])
  else (Raise e, after [Posted (sent h)]).
Proof.
  intros Hn. start. rewrite Hn.
  destruct (isinstance_Exception e); run_eff; rewrite <- ?app_assoc; reflexivity.
Qed.

Lemma translate_json_raises (resp : response) (e : exn) :
  network (sent h) = Ok resp →
  resp_json resp = Raise e →
  translate clock network self text w =
  if isinstance_Exception e
  then (Raise e,
        after [Posted (sent h);
               Logged CRITICAL (lit "API call error: ") (OfException e)])
  else (Raise e, after [Posted (sent h)]).
Proof.
  intros Hn Hj. start. rewrite Hn. run_eff. rewrite Hj.
  destruct (isinstance_Exception e); run_eff; rewrite <- ?app_assoc; reflexivity.
Qed.

Lemma translate_parsed (resp : response) (res : pyval) :
  network (sent h) = Ok resp →
  resp_json resp = Ok res →
  translate clock network self text w =
  match shape_of res with
  | FieldPresent x =>
      (Ok x,
       after [Posted (sent h);
              Logged INFO (lit "Request successful: ") (OfValue res)])
  | FieldMissing =>
      (Ok translation_failed,
       after [Posted (sent h);
              Logged INFO (lit "Request successful: ") (OfValue res)])
  | NotAnObject =>
      (Raise (AttributeError "get"),
       after [Posted (sent h);
              Logged INFO (lit "Request successful: ") (OfValue res);
              Logged CRITICAL (lit "API call error: ")
                (OfException (AttributeError "get"))])
  end.
Proof.
  intros Hn Hj. start. rewrite Hn. run_eff. rewrite Hj. run_eff.
  unfold shape_of.
  destruct res as [| | | | |items|items]; try finish.
  destruct (dict_lookup (lit "Response") items) as [inner|] eqn:E1.
  - destruct inner as [| | | | |xs|xs]; try (unfold py_get; rewrite E1; finish).
    destruct (dict_lookup (lit "TargetText") xs) as [x|] eqn:E2;
      unfold py_get; rewrite E1; cbn [default from_option id]; cbv beta iota;
      rewrite E2; finish.
  - unfold py_get; rewrite E1; finish.
Qed.

End Sent.
End Runs.

(** What a returned header map tells about the signing that produced it. *)
Lemma prepare_headers_inv
    (self : TencentTranslate) (payload : list N) (timestamp : Z) (date : list N)
    (h : gmap (list N) (list N)) :
  _prepare_headers self payload timestamp date = Ok h →
  ∃ digest sig : list N,
    string_to_sign self payload timestamp date =
      Ok (algorithm self ++ nl ++ str_of_int timestamp ++ nl ++
          credential_scope self date ++ nl ++ digest) ∧
    signature self payload timestamp date = Ok sig ∧
    h !! lit "Authorization" =
      Some (algorithm self ++ lit " Credential=" ++ secret_id self ++ lit "/" ++
            credential_scope self date ++ lit ", SignedHeaders=" ++ signed_headers ++
            lit ", Signature=" ++ sig) ∧
    h !! lit "X-TC-Timestamp" = Some (str_of_int timestamp).
Proof.
  intros Hh.
  destruct (authorization self payload timestamp date) as [auth|e] eqn:Hauth;
    [|rewrite (prepare_headers_Raise _ _ _ _ _ Hauth) in Hh; discriminate].
  destruct (prepare_headers_Ok _ _ _ _ _ Hauth) as (h' & Hh' & Ha & _ & _ & _ & Hts & _).
  rewrite Hh in Hh'. injection Hh' as <-.
  revert Hauth. unfold authorization.
  destruct (signature self payload timestamp date) as [sig|e] eqn:Hsig;
    [|discriminate].
  rewrite bind_Ok. intros [= <-].
  revert Hsig. unfold signature.
  destruct (string_to_sign self payload timestamp date) as [sts|e] eqn:Hsts;
    [|discriminate].
  intros _. revert Hsts. unfold string_to_sign.
  destruct (hashed_canonical_request self payload) as [digest|e]; [|discriminate].
  rewrite bind_Ok. intros [= <-].
  exists digest, sig. repeat split; assumption || reflexivity.
Qed.

Lemma sample_prepare_headers :
  _prepare_headers sample_client (payload_of sample_client sample_text)
    sample_timestamp sample_date = Ok sample_headers.
Proof.
  unfold _prepare_headers.
  assert (authorization sample_client (payload_of sample_client sample_text)
            sample_timestamp sample_date = Ok sample_translate_authorization) as ->
    by (vm_compute; reflexivity).
  reflexivity.
Qed.

Lemma sample_fromtimestamp :
  Calendar.fromtimestamp_utc (sample_clock (clock_reads start_world)) =
  Ok (Calendar.Date 2023 11 14).
Proof. vm_compute. reflexivity. Qed.

Lemma sample_prepare_headers_run :
  _prepare_headers sample_client (payload_of sample_client sample_text)
    (sample_clock (clock_reads start_world))
    (Calendar.strftime_Ymd (Calendar.Date 2023 11 14)) = Ok sample_headers.
Proof. exact sample_prepare_headers. Qed.

(** No request occurs among the log records that follow the one sent. *)
Ltac no_further_post :=
  let req := fresh "req" in
  let Hin := fresh "Hin" in
  intros req Hin;
  repeat (apply elem_of_cons in Hin as [Hin|Hin]; [discriminate Hin|]);
  exact (proj1 (elem_of_nil _) Hin).

(** C4: [translate] reads the clock once.  If the date of that reading
    cannot be formed or signing raises, nothing is sent.  Otherwise one
    request is sent, and in it the header [X-TC-Timestamp] is the decimal
    rendering of the reading while the credential scope of
    [Authorization], the string to sign and the signing key all use the
    UTC date of that same reading. *)
Theorem translate_signs_with_sent_timestamp
    (clock : nat → Z) (network : request → result response)
    (self : TencentTranslate) (text : list N) (w : world) :
  let ts := clock (clock_reads w) in
  let payload := payload_of self text in
  let out := translate clock network self text w in
  clock_reads (snd out) = S (clock_reads w) ∧
  match Calendar.fromtimestamp_utc ts with
  | Raise e => out = (Raise e, World (S (clock_reads w)) (trace w))
  | Ok d =>
      let date := Calendar.strftime_Ymd d in
      match _prepare_headers self payload ts date with
      | Raise e => out = (Raise e, World (S (clock_reads w)) (trace w))
      | Ok h =>
          (∃ rest,
             trace (snd out) =
               trace w ++
               Posted (Request (lit "https://" ++ host self) h payload) :: rest ∧
             ∀ req, Posted req ∉ rest) ∧
          h !! lit "X-TC-Timestamp" = Some (str_of_int ts) ∧
          ∃ digest sig,
            string_to_sign self payload ts date =
              Ok (algorithm self ++ nl ++ str_of_int ts ++ nl ++
                  (date ++ lit "/" ++ service self ++ lit "/tc3_request") ++ nl ++
                  digest) ∧
            signature self payload ts date = Ok sig ∧
            h !! lit "Authorization" =
              Some (algorithm self ++ lit " Credential=" ++ secret_id self ++
                    lit "/" ++
                    (date ++ lit "/" ++ service self ++ lit "/tc3_request") ++
                    lit ", SignedHeaders=" ++ signed_headers ++
                    lit ", Signature=" ++ sig)
      end
  end.
Proof.
  intros ts payload out.
  destruct (Calendar.fromtimestamp_utc ts) as [d|e] eqn:Hd.
  2:{ unfold out. rewrite (translate_date_raises _ _ _ _ _ _ Hd). by split. }
  cbv zeta.
  destruct (_prepare_headers self payload ts (Calendar.strftime_Ymd d))
    as [h|e] eqn:Hh.
  2:{ unfold out. rewrite (translate_signing_raises _ _ _ _ _ _ _ Hd Hh).
      by split. }
  assert (∃ r rest,
            out =
              (r, World (S (clock_reads w))
                    (trace w ++
                     Posted (Request (lit "https://" ++ host self) h payload)
                     :: rest)) ∧
            ∀ req, Posted req ∉ rest) as (r & rest & Hout & Hrest).
  { unfold out.
    destruct (network (Request (lit "https://" ++ host self) h payload))
      as [resp|e] eqn:Hn.
    - destruct (resp_json resp) as [res|e] eqn:Hj.
      + rewrite (translate_parsed _ _ _ _ _ _ _ Hd Hh _ _ Hn Hj).
        destruct (shape_of res); do 2 eexists; (split; [reflexivity|]);
          no_further_post.
      + rewrite (translate_json_raises _ _ _ _ _ _ _ Hd Hh _ _ Hn Hj).
        destruct (isinstance_Exception e); do 2 eexists; (split; [reflexivity|]);
          no_further_post.
    - rewrite (translate_post_raises _ _ _ _ _ _ _ Hd Hh _ Hn).
      destruct (isinstance_Exception e); do 2 eexists; (split; [reflexivity|]);
        no_further_post. }
  rewrite Hout. split; [reflexivity|]. split; [by exists rest|].
  destruct (prepare_headers_inv _ _ _ _ _ Hh) as (digest & sig & H1 & H2 & H3 & H4).
  split; [exact H4|]. exists digest, sig. repeat split; assumption.
Qed.

(** C9: when the HTTP call, or the JSON decoding of its response, raises
    an exception (an instance of [Exception], which is what the handler
    catches), [translate] sends the request once, logs once at critical
    level and raises that same exception; it returns no value. *)
Theorem transport_failure_propagates
    (clock : nat → Z) (network : request → result response)
    (self : TencentTranslate) (text : list N) (w : world)
    (d : Calendar.date) (h : gmap (list N) (list N)) (e : exn) :
  let ts := clock (clock_reads w) in
  let payload := payload_of self text in
  let req := Request (lit "https://" ++ host self) h payload in
  Calendar.fromtimestamp_utc ts = Ok d →
  _prepare_headers self payload ts (Calendar.strftime_Ymd d) = Ok h →
  isinstance_Exception e = true →
  (network req = Raise e ∨
   ∃ resp, network req = Ok resp ∧ resp_json resp = Raise e) →
  translate clock network self text w =
  (Raise e,
   World (S (clock_reads w))
     (trace w ++
      [Posted req; Logged CRITICAL (lit "API call error: ") (OfException e)])).
Proof.
  intros ts payload req Hd Hh He [Hn | (resp & Hn & Hj)].
  - rewrite (translate_post_raises _ _ _ _ _ _ _ Hd Hh _ Hn), He. reflexivity.
  - rewrite (translate_json_raises _ _ _ _ _ _ _ Hd Hh _ _ Hn Hj), He. reflexivity.
Qed.

Lemma transport_failure_propagates_witness :
  Calendar.fromtimestamp_utc (sample_clock (clock_reads start_world)) =
    Ok (Calendar.Date 2023 11 14) ∧
  _prepare_headers sample_client (payload_of sample_client sample_text)
    (sample_clock (clock_reads start_world))
    (Calendar.strftime_Ymd (Calendar.Date 2023 11 14)) = Ok sample_headers ∧
  isinstance_Exception connect_error = true ∧
  failing_network sample_request = Raise connect_error ∧
  translate sample_clock failing_network sample_client sample_text start_world =
  (Raise connect_error,
   World 1 [Posted sample_request;
            Logged CRITICAL (lit "API call error: ") (OfException connect_error)]).
Proof.
  split; [exact sample_fromtimestamp|]. split; [exact sample_prepare_headers_run|].
  split; [reflexivity|]. split; [reflexivity|].
  apply (transport_failure_propagates sample_clock failing_network sample_client
           sample_text start_world (Calendar.Date 2023 11 14) sample_headers
           connect_error sample_fromtimestamp sample_prepare_headers_run eq_refl).
  left. reflexivity.
Defined.

(** A body that is not JSON takes the same path. *)
Example undecodable_body_propagates :
  translate sample_clock garbled_network sample_client sample_text start_world =
  (Raise decode_error,
   World 1 [Posted sample_request;
            Logged CRITICAL (lit "API call error: ") (OfException decode_error)]).
Proof.
  rewrite (translate_json_raises sample_clock garbled_network sample_client
             sample_text start_world (Calendar.Date 2023 11 14) sample_headers
             sample_fromtimestamp sample_prepare_headers_run
             (Response (Raise decode_error)) decode_error eq_refl eq_refl).
  reflexivity.
Qed.

(** ** Response shapes *)

Lemma shape_present_path (res x : pyval) :
  shape_of res = FieldPresent x ↔
  json_path [lit "Response"; lit "TargetText"] res = Some x.
Proof.
  unfold shape_of, json_path.
  destruct res as [| | | | |items|items]; try (split; discriminate).
  destruct (dict_lookup (lit "Response") items) as [inner|]; [|split; discriminate].
  destruct inner as [| | | | |xs|xs]; try (split; discriminate).
  destruct (dict_lookup (lit "TargetText") xs); split; congruence.
Qed.

Lemma shape_missing_keys (res : pyval) :
  shape_of res = FieldMissing ↔
  ∃ items, res = PDict items ∧
    (dict_lookup (lit "Response") items = None ∨
     ∃ inner, dict_lookup (lit "Response") items = Some (PDict inner) ∧
              dict_lookup (lit "TargetText") inner = None).
Proof.
  unfold shape_of. split.
  - destruct res as [| | | | |items|items]; try discriminate.
    intros H. exists items. split; [reflexivity|].
    destruct (dict_lookup (lit "Response") items) as [inner|]; [|by left].
    destruct inner as [| | | | |xs|xs]; try discriminate.
    destruct (dict_lookup (lit "TargetText") xs) eqn:E; [discriminate|].
    right. by exists xs.
  - intros (items & -> & [H | (inner & H1 & H2)]).
    + by rewrite H.
    + by rewrite H1, H2.
Qed.

(** C7, as the code has it: when the body parses to a JSON object whose
    "Response" key is absent, or whose "Response" value is an object with
    no "TargetText" key, [translate] returns the literal
    "Translation failed" and does not raise; it logs the parsed body at
    info level and nothing at critical level. *)
Theorem fallback_on_missing_key
    (clock : nat → Z) (network : request → result response)
    (self : TencentTranslate) (text : list N) (w : world)
    (d : Calendar.date) (h : gmap (list N) (list N))
    (resp : response) (items : list (list N * pyval)) :
  let ts := clock (clock_reads w) in
  let payload := payload_of self text in
  let req := Request (lit "https://" ++ host self) h payload in
  Calendar.fromtimestamp_utc ts = Ok d →
  _prepare_headers self payload ts (Calendar.strftime_Ymd d) = Ok h →
  network req = Ok resp →
  resp_json resp = Ok (PDict items) →
  (dict_lookup (lit "Response") items = None ∨
   ∃ inner, dict_lookup (lit "Response") items = Some (PDict inner) ∧
            dict_lookup (lit "TargetText") inner = None) →
  translate clock network self text w =
  (Ok (PStr (lit "Translation failed")),
   World (S (clock_reads w))
     (trace w ++
      [Posted req;
       Logged INFO (lit "Request successful: ") (OfValue (PDict items))])).
Proof.
  intros ts payload req Hd Hh Hn Hj Hmissing.
  rewrite (translate_parsed _ _ _ _ _ _ _ Hd Hh _ _ Hn Hj).
  assert (shape_of (PDict items) = FieldMissing) as ->; [|reflexivity].
  apply shape_missing_keys. by exists items.
Qed.

Lemma fallback_on_missing_key_witness :
  Calendar.fromtimestamp_utc (sample_clock (clock_reads start_world)) =
    Ok (Calendar.Date 2023 11 14) ∧
  _prepare_headers sample_client (payload_of sample_client sample_text)
    (sample_clock (clock_reads start_world))
    (Calendar.strftime_Ymd (Calendar.Date 2023 11 14)) = Ok sample_headers ∧
  answering body_without_response sample_request =
    Ok (Response (Ok body_without_response)) ∧
  dict_lookup (lit "Response") [(lit "Error", PStr (lit "denied"))] = None ∧
  translate sample_clock (answering body_without_response) sample_client
    sample_text start_world =
  (Ok (PStr (lit "Translation failed")),
   World 1 [Posted sample_request;
            Logged INFO (lit "Request successful: ")
              (OfValue body_without_response)]).
Proof.
  split; [exact sample_fromtimestamp|]. split; [exact sample_prepare_headers_run|].
  split; [reflexivity|]. split; [reflexivity|].
  apply (fallback_on_missing_key sample_clock (answering body_without_response)
           sample_client sample_text start_world (Calendar.Date 2023 11 14)
           sample_headers (Response (Ok body_without_response))
           [(lit "Error", PStr (lit "denied"))]
           sample_fromtimestamp sample_prepare_headers_run eq_refl eq_refl).
  left. reflexivity.
Defined.

(** The body [{"Response": null}] is a JSON object and holds nothing at
    [Response.TargetText], yet [translate] raises on it: [None] has no
    method [get]. *)
Lemma null_response_raises :
  is_object body_null_response = true ∧
  json_path [lit "Response"; lit "TargetText"] body_null_response = None ∧
  answering body_null_response sample_request =
    Ok (Response (Ok body_null_response)) ∧
  translate sample_clock (answering body_null_response) sample_client
    sample_text start_world =
  (Raise (AttributeError "get"),
   World 1 [Posted sample_request;
            Logged INFO (lit "Request successful: ") (OfValue body_null_response);
            Logged CRITICAL (lit "API call error: ")
              (OfException (AttributeError "get"))]) ∧
  fst (translate sample_clock (answering body_null_response) sample_client
         sample_text start_world) ≠ Ok (PStr (lit "Translation failed")).
Proof.
  assert (translate sample_clock (answering body_null_response) sample_client
            sample_text start_world =
          (Raise (AttributeError "get"),
           World 1 [Posted sample_request;
                    Logged INFO (lit "Request successful: ")
                      (OfValue body_null_response);
                    Logged CRITICAL (lit "API call error: ")
                      (OfException (AttributeError "get"))])) as Hrun.
  { rewrite (translate_parsed sample_clock (answering body_null_response)
               sample_client sample_text start_world (Calendar.Date 2023 11 14)
               sample_headers sample_fromtimestamp sample_prepare_headers_run
               (Response (Ok body_null_response)) body_null_response
               eq_refl eq_refl).
    reflexivity. }
  do 3 (split; [reflexivity|]). split; [exact Hrun|].
  rewrite Hrun. discriminate.
Qed.

(** C8, as the code has it: for every body that parses as JSON,
    [translate] returns the fallback string when the body is an object
    whose "Response" key is absent or whose "Response" object has no
    "TargetText" key; it returns the value stored at
    [Response.TargetText], string or not, when there is one; and when the
    body is not an object, or its "Response" value is not an object, the
    [AttributeError] of [get] is logged at critical level and raised. *)
Theorem translate_by_body_shape
    (clock : nat → Z) (network : request → result response)
    (self : TencentTranslate) (text : list N) (w : world)
    (d : Calendar.date) (h : gmap (list N) (list N))
    (resp : response) (res : pyval) :
  let ts := clock (clock_reads w) in
  let payload := payload_of self text in
  let req := Request (lit "https://" ++ host self) h payload in
  let info := Logged INFO (lit "Request successful: ") (OfValue res) in
  let after := fun evs => World (S (clock_reads w)) (trace w ++ evs) in
  Calendar.fromtimestamp_utc ts = Ok d →
  _prepare_headers self payload ts (Calendar.strftime_Ymd d) = Ok h →
  network req = Ok resp →
  resp_json resp = Ok res →
  (∀ x, json_path [lit "Response"; lit "TargetText"] res = Some x →
        translate clock network self text w = (Ok x, after [Posted req; info])) ∧
  ((∃ items, res = PDict items ∧
      (dict_lookup (lit "Response") items = None ∨
       ∃ inner, dict_lookup (lit "Response") items = Some (PDict inner) ∧
                dict_lookup (lit "TargetText") inner = None)) →
   translate clock network self text w =
     (Ok (PStr (lit "Translation failed")), after [Posted req; info])) ∧
  ((is_object res = false ∨
    ∃ items v, res = PDict items ∧
               dict_lookup (lit "Response") items = Some v ∧
               is_object v = false) →
   translate clock network self text w =
     (Raise (AttributeError "get"),
      after [Posted req; info;
             Logged CRITICAL (lit "API call error: ")
               (OfException (AttributeError "get"))])).
Proof.
  intros ts payload req info after Hd Hh Hn Hj.
  rewrite (translate_parsed _ _ _ _ _ _ _ Hd Hh _ _ Hn Hj).
  split; [|split].
  - intros x Hx. apply shape_present_path in Hx. by rewrite Hx.
  - intros Hm. apply shape_missing_keys in Hm. by rewrite Hm.
  - intros [Hno | (items & v & -> & Hv & Hno)].
    + destruct res; try discriminate; reflexivity.
    + unfold shape_of. rewrite Hv. destruct v; try discriminate; reflexivity.
Qed.

Lemma translate_by_body_shape_witness :
  Calendar.fromtimestamp_utc (sample_clock (clock_reads start_world)) =
    Ok (Calendar.Date 2023 11 14) ∧
  _prepare_headers sample_client (payload_of sample_client sample_text)
    (sample_clock (clock_reads start_world))
    (Calendar.strftime_Ymd (Calendar.Date 2023 11 14)) = Ok sample_headers ∧
  answering body_translated sample_request = Ok (Response (Ok body_translated)) ∧
  json_path [lit "Response"; lit "TargetText"] body_translated =
    Some (PStr (lit "konnichiwa")) ∧
  translate sample_clock (answering body_translated) sample_client
    sample_text start_world =
  (Ok (PStr (lit "konnichiwa")),
   World 1 [Posted sample_request;
            Logged INFO (lit "Request successful: ") (OfValue body_translated)]).
Proof.
  split; [exact sample_fromtimestamp|]. split; [exact sample_prepare_headers_run|].
  split; [reflexivity|]. split; [reflexivity|].
  destruct (translate_by_body_shape sample_clock (answering body_translated)
              sample_client sample_text start_world (Calendar.Date 2023 11 14)
              sample_headers (Response (Ok body_translated)) body_translated
              sample_fromtimestamp sample_prepare_headers_run eq_refl eq_refl)
    as [Hpresent _].
  exact (Hpresent (PStr (lit "konnichiwa")) eq_refl).
Defined.

(** The body [{"Response": "denied"}] parses as JSON and is not an object
    holding a string at [Response.TargetText]; [translate] does not
    return the fallback on it but raises. *)
Lemma text_response_raises :
  json_path [lit "Response"; lit "TargetText"] body_text_response = None ∧
  answering body_text_response sample_request =
    Ok (Response (Ok body_text_response)) ∧
  translate sample_clock (answering body_text_response) sample_client
    sample_text start_world =
  (Raise (AttributeError "get"),
   World 1 [Posted sample_request;
            Logged INFO (lit "Request successful: ") (OfValue body_text_response);
            Logged CRITICAL (lit "API call error: ")
              (OfException (AttributeError "get"))]) ∧
  fst (translate sample_clock (answering body_text_response) sample_client
         sample_text start_world) ≠ Ok (PStr (lit "Translation failed")).
Proof.
  assert (translate sample_clock (answering body_text_response) sample_client
            sample_text start_world =
          (Raise (AttributeError "get"),
           World 1 [Posted sample_request;
                    Logged INFO (lit "Request successful: ")
                      (OfValue body_text_response);
                    Logged CRITICAL (lit "API call error: ")
                      (OfException (AttributeError "get"))])) as Hrun.
  { rewrite (translate_parsed sample_clock (answering body_text_response)
               sample_client sample_text start_world (Calendar.Date 2023 11 14)
               sample_headers sample_fromtimestamp sample_prepare_headers_run
               (Response (Ok body_text_response)) body_text_response
               eq_refl eq_refl).
    reflexivity. }
  do 2 (split; [reflexivity|]). split; [exact Hrun|].
  rewrite Hrun. discriminate.
Qed.

(** * Further properties *)

(** ** Outcomes of encoding and signing *)

Lemma Ok_inj {A : Type} (a b : A) : Ok a = Ok b → a = b.
Proof. congruence. Qed.

Lemma encode_utf8_outcome (s : list N) :
  encode_utf8 s =
  if UTF8.encodable s then Ok (Reference.utf8 s) else Raise UnicodeEncodeError.
Proof.
  unfold encode_utf8, UTF8.encodable, Reference.utf8.
  destruct (UTF8.encode_opt s); reflexivity.
Qed.

Lemma reference_utf8_app (a b : list N) :
  UTF8.encodable a = true → UTF8.encodable b = true →
  Reference.utf8 (a ++ b) = Reference.utf8 a ++ Reference.utf8 b.
Proof.
  unfold UTF8.encodable, Reference.utf8. rewrite encode_opt_app.
  destruct (UTF8.encode_opt a), (UTF8.encode_opt b); try discriminate.
  reflexivity.
Qed.

Lemma sign_outcome (key : list byte) (msg : list N) :
  sign key msg =
  if UTF8.encodable msg then Ok (HMAC.digest key (Reference.utf8 msg))
  else Raise UnicodeEncodeError.
Proof.
  unfold sign. rewrite encode_utf8_outcome.
  destruct (UTF8.encodable msg); reflexivity.
Qed.

Lemma create_signature_cases
    (self : TencentTranslate) (date service : list N) :
  create_signature self date service =
  if UTF8.encodable (secret_key self) && UTF8.encodable date &&
     UTF8.encodable service
  then Ok (HMAC.digest
             (HMAC.digest
                (HMAC.digest (ascii_bytes "TC3" ++ Reference.utf8 (secret_key self))
                   (Reference.utf8 date))
                (Reference.utf8 service))
             (ascii_bytes "tc3_request"))
  else Raise UnicodeEncodeError.
Proof.
  unfold create_signature.
  rewrite encode_utf8_outcome, encodable_app.
  change (UTF8.encodable (lit "TC3")) with true. cbn [andb].
  destruct (UTF8.encodable (secret_key self)) eqn:Hk; [|reflexivity].
  rewrite bind_Ok, sign_outcome.
  destruct (UTF8.encodable date); [|reflexivity].
  rewrite bind_Ok, sign_outcome.
  destruct (UTF8.encodable service); [|reflexivity].
  rewrite bind_Ok, sign_outcome.
  change (UTF8.encodable (lit "tc3_request")) with true. cbv iota.
  rewrite bind_Ok, reference_utf8_app by (assumption || reflexivity).
  reflexivity.
Qed.

(** X1: [create_signature] returns a key exactly when the secret key, the
    date and the service name all have UTF-8 bytes, and the key is then
    the three-step HMAC chain over those bytes; in every other case it
    raises [UnicodeEncodeError]. *)
Theorem create_signature_outcome
    (self : TencentTranslate) (date service : list N) :
  let usable :=
    UTF8.encodable (secret_key self) && UTF8.encodable date &&
    UTF8.encodable service in
  ((∃ key, create_signature self date service = Ok key) ↔ usable = true) ∧
  (∀ key, create_signature self date service = Ok key →
     key =
       HMAC.digest
         (HMAC.digest
            (HMAC.digest (ascii_bytes "TC3" ++ Reference.utf8 (secret_key self))
               (Reference.utf8 date))
            (Reference.utf8 service))
         (ascii_bytes "tc3_request")) ∧
  (∀ e, create_signature self date service = Raise e → e = UnicodeEncodeError).
Proof.
  intros usable. rewrite create_signature_cases. fold usable.
  destruct usable; repeat split.
  - by eexists.
  - intros key H. symmetry. by apply Ok_inj.
  - discriminate.
  - intros [key H]. discriminate H.
  - discriminate.
  - discriminate.
  - congruence.
Qed.

Lemma encodable_ascii_literal_hex (bs : list byte) : UTF8.encodable (hex bs) = true.
Proof. apply ascii_encodable, ascii_only_hex. Qed.

Lemma encodable_str_of_int (n : Z) : UTF8.encodable (str_of_int n) = true.
Proof. apply ascii_encodable, ascii_only_str_of_int. Qed.

Lemma canonical_request_encodable
    (self : TencentTranslate) (payload request : list N) :
  canonical_request self payload = Ok request →
  UTF8.encodable request =
  UTF8.encodable (host self) && UTF8.encodable (lower (action self)).
Proof.
  unfold canonical_request, hashed_request_payload.
  destruct (encode_utf8 payload) as [pb|e]; [|discriminate].
  rewrite !bind_Ok. intros <-%Ok_inj.
  unfold canonical_headers, ct, signed_headers, canonical_uri, canonical_querystring,
    sha256_hexdigest.
  cbn [join]. rewrite !encodable_app, encodable_ascii_literal_hex.
  repeat match goal with
         | |- context [UTF8.encodable (lit ?s)] =>
             change (UTF8.encodable (lit s)) with true
         | |- context [UTF8.encodable nl] => change (UTF8.encodable nl) with true
         end.
  cbn [andb]. rewrite !andb_true_r. reflexivity.
Qed.

Lemma string_to_sign_encodable
    (self : TencentTranslate) (payload : list N) (timestamp : Z)
    (date to_sign : list N) :
  string_to_sign self payload timestamp date = Ok to_sign →
  UTF8.encodable to_sign =
  UTF8.encodable (algorithm self) && UTF8.encodable date &&
  UTF8.encodable (service self).
Proof.
  unfold string_to_sign.
  destruct (hashed_canonical_request self payload) as [hx|e] eqn:Hh; [|discriminate].
  rewrite bind_Ok. intros <-%Ok_inj.
  assert (UTF8.encodable hx = true) as Hhx.
  { revert Hh. unfold hashed_canonical_request.
    destruct (canonical_request self payload); [|discriminate].
    rewrite bind_Ok. destruct (encode_utf8 _); [|discriminate].
    rewrite bind_Ok. intros <-%Ok_inj. apply encodable_ascii_literal_hex. }
  unfold credential_scope.
  rewrite !encodable_app, Hhx, encodable_str_of_int.
  repeat match goal with
         | |- context [UTF8.encodable (lit ?s)] =>
             change (UTF8.encodable (lit s)) with true
         | |- context [UTF8.encodable nl] => change (UTF8.encodable nl) with true
         end.
  cbn [andb]. rewrite !andb_true_r.
  destruct (UTF8.encodable (algorithm self)), (UTF8.encodable date),
    (UTF8.encodable (service self)); reflexivity.
Qed.

Lemma authorization_outcome
    (self : TencentTranslate) (payload : list N) (timestamp : Z) (date : list N) :
  if signing_texts_encodable self payload date
  then ∃ auth, authorization self payload timestamp date = Ok auth
  else authorization self payload timestamp date = Raise UnicodeEncodeError.
Proof.
  unfold signing_texts_encodable.
  destruct (UTF8.encodable payload) eqn:Hp; cbn [andb].
  2:{ unfold authorization, signature, string_to_sign, hashed_canonical_request,
        canonical_request, hashed_request_payload.
      rewrite encode_utf8_outcome, Hp. reflexivity. }
  assert (∃ request, canonical_request self payload = Ok request) as [request Hcr].
  { unfold canonical_request, hashed_request_payload.
    rewrite encode_utf8_outcome, Hp, !bind_Ok. eexists. reflexivity. }
  pose proof (canonical_request_encodable _ _ _ Hcr) as Hreq.
  destruct (UTF8.encodable (host self) && UTF8.encodable (lower (action self)))
    eqn:Hha.
  2:{ cbn [andb].
      unfold authorization, signature, string_to_sign, hashed_canonical_request.
      rewrite Hcr, bind_Ok, encode_utf8_outcome, Hreq. reflexivity. }
  cbn [andb].
  assert (∃ to_sign, string_to_sign self payload timestamp date = Ok to_sign)
    as [to_sign Hsts].
  { unfold string_to_sign, hashed_canonical_request.
    rewrite Hcr, bind_Ok, encode_utf8_outcome, Hreq, !bind_Ok. eexists. reflexivity. }
  pose proof (string_to_sign_encodable _ _ _ _ _ Hsts) as Hts.
  unfold authorization, signature.
  rewrite Hsts, bind_Ok, create_signature_cases, encode_utf8_outcome, Hts.
  destruct (UTF8.encodable (secret_key self)), (UTF8.encodable date),
    (UTF8.encodable (service self)), (UTF8.encodable (algorithm self));
    cbn [andb]; rewrite ?bind_Ok; try reflexivity.
  eexists. reflexivity.
Qed.

Lemma prepare_headers_cases
    (self : TencentTranslate) (payload : list N) (timestamp : Z) (date : list N) :
  if signing_texts_encodable self payload date
  then ∃ h : gmap (list N) (list N),
         _prepare_headers self payload timestamp date = Ok h
  else _prepare_headers self payload timestamp date = Raise UnicodeEncodeError.
Proof.
  pose proof (authorization_outcome self payload timestamp date) as H.
  destruct (signing_texts_encodable self payload date).
  - destruct H as [auth Hauth].
    destruct (prepare_headers_Ok _ _ _ _ _ Hauth) as (h & Hh & _). by exists h.
  - by apply prepare_headers_Raise.
Qed.


(** ** The header map *)

Lemma prepare_headers_Ok_inv
    (self : TencentTranslate) (payload : list N) (timestamp : Z) (date : list N)
    (h : gmap (list N) (list N)) :
  _prepare_headers self payload timestamp date = Ok h →
  ∃ auth, authorization self payload timestamp date = Ok auth ∧
    h = (let headers : gmap (list N) (list N) :=
           <[lit "X-TC-Version" := version self]>
           (<[lit "X-TC-Timestamp" := str_of_int timestamp]>
           (<[lit "X-TC-Action" := action self]>
           (<[lit "Host" := host self]>
           (<[lit "Content-Type" := ct]>
           (<[lit "Authorization" := auth]> ∅))))) in
         let headers :=
           if truthy (region self)
           then <[lit "X-TC-Region" := region self]> headers else headers in
         if truthy (token self)
         then <[lit "X-TC-Token" := token self]> headers else headers).
Proof.
  unfold _prepare_headers.
  destruct (authorization self payload timestamp date) as [auth|e]; [|discriminate].
  rewrite bind_Ok. intros H%Ok_inj. exists auth. split; [reflexivity|].
  symmetry. exact H.
Qed.

(** X3: a returned header map has exactly the six fixed names, plus
    [X-TC-Region] when the region is non-empty and [X-TC-Token] when the
    token is non-empty, and no other name: between six and eight
    entries. *)
Theorem prepare_headers_names
    (self : TencentTranslate) (payload : list N) (timestamp : Z) (date : list N)
    (h : gmap (list N) (list N)) :
  _prepare_headers self payload timestamp date = Ok h →
  dom h = header_names self ∧
  6 ≤ size h ≤ 8.
Proof.
  intros (auth & _ & ->)%prepare_headers_Ok_inv.
  assert (dom (let headers : gmap (list N) (list N) :=
           <[lit "X-TC-Version" := version self]>
           (<[lit "X-TC-Timestamp" := str_of_int timestamp]>
           (<[lit "X-TC-Action" := action self]>
           (<[lit "Host" := host self]>
           (<[lit "Content-Type" := ct]>
           (<[lit "Authorization" := auth]> ∅))))) in
         let headers :=
           if truthy (region self)
           then <[lit "X-TC-Region" := region self]> headers else headers in
         if truthy (token self)
         then <[lit "X-TC-Token" := token self]> headers else headers)
          = header_names self) as Hdom.
  { unfold header_names. cbv zeta.
    destruct (truthy (region self)), (truthy (token self));
      rewrite !dom_insert_L, dom_empty_L; set_solver. }
  split; [exact Hdom|].
  rewrite <- size_dom, Hdom. unfold header_names.
  destruct (truthy (region self)), (truthy (token self)); vm_compute; lia.
Qed.

Lemma prepare_headers_names_witness :
  _prepare_headers sample_client (payload_of sample_client sample_text)
    sample_timestamp sample_date = Ok sample_headers ∧
  dom sample_headers = header_names sample_client ∧
  6 ≤ size sample_headers ≤ 8.
Proof.
  split; [exact sample_prepare_headers|].
  exact (prepare_headers_names sample_client (payload_of sample_client sample_text)
           sample_timestamp sample_date sample_headers sample_prepare_headers).
Defined.

Lemma hmac_digest_length (key msg : list byte) : length (HMAC.digest key msg) = 32.
Proof. unfold HMAC.digest. apply sha256_digest_length. Qed.

(** X4: whenever signing succeeds the signature is 64 lowercase hex
    digits and the derived signing key has 32 bytes, whatever the lengths
    of the secret key and of the payload. *)
Theorem signature_format
    (self : TencentTranslate) (payload : list N) (timestamp : Z) (date : list N)
    (sig : list N) :
  signature self payload timestamp date = Ok sig →
  length sig = 64 ∧
  forallb lowercase_hex_digit sig = true ∧
  ∃ key, create_signature self date (service self) = Ok key ∧ length key = 32.
Proof.
  unfold signature.
  destruct (string_to_sign self payload timestamp date) as [sts|e]; [|discriminate].
  rewrite bind_Ok.
  destruct (create_signature self date (service self)) as [key|e] eqn:Hkey;
    [|discriminate].
  rewrite bind_Ok. destruct (encode_utf8 sts) as [m|e]; [|discriminate].
  rewrite bind_Ok. intros <-%Ok_inj. unfold HMAC.hexdigest.
  split; [by rewrite hex_length, hmac_digest_length|].
  split; [apply hex_lowercase|].
  exists key. split; [reflexivity|].
  revert Hkey. rewrite create_signature_cases.
  destruct (_ && _ && _); [|discriminate].
  intros <-%Ok_inj. apply hmac_digest_length.
Qed.

Lemma signature_format_witness :
  signature sample_client sample_payload sample_timestamp sample_date =
    Ok sample_signature ∧
  length sample_signature = 64 ∧
  forallb lowercase_hex_digit sample_signature = true.
Proof.
  assert (signature sample_client sample_payload sample_timestamp sample_date =
            Ok sample_signature) as H by (vm_compute; reflexivity).
  split; [exact H|].
  destruct (signature_format sample_client sample_payload sample_timestamp
              sample_date sample_signature H) as (H1 & H2 & _).
  split; [exact H1 | exact H2].
Defined.

(** X5: the three headers named in the signed-headers list carry in the
    request the values that were signed: the canonical headers string is
    built from the sent [Content-Type], the sent [Host] and the lowercase
    of the sent [X-TC-Action]. *)
Theorem signed_headers_are_sent
    (self : TencentTranslate) (payload : list N) (timestamp : Z) (date : list N)
    (h : gmap (list N) (list N)) :
  _prepare_headers self payload timestamp date = Ok h →
  ∃ content_type host_value action_value : list N,
    h !! lit "Content-Type" = Some content_type ∧
    h !! lit "Host" = Some host_value ∧
    h !! lit "X-TC-Action" = Some action_value ∧
    canonical_headers self =
      lit "content-type:" ++ content_type ++ nl ++
      lit "host:" ++ host_value ++ nl ++
      lit "x-tc-action:" ++ lower action_value ++ nl.
Proof.
  intros Hh.
  destruct (prepare_headers_Ok_inv _ _ _ _ _ Hh) as (auth & Hauth & _).
  destruct (prepare_headers_Ok _ _ _ _ _ Hauth)
    as (h' & Hh' & _ & Hct & Hhost & Hact & _).
  rewrite Hh in Hh'. apply Ok_inj in Hh' as <-.
  exists ct, (host self), (action self).
  do 3 (split; [assumption|]). reflexivity.
Qed.

Lemma signed_headers_are_sent_witness :
  _prepare_headers sample_client (payload_of sample_client sample_text)
    sample_timestamp sample_date = Ok sample_headers ∧
  ∃ content_type host_value action_value : list N,
    sample_headers !! lit "Content-Type" = Some content_type ∧
    sample_headers !! lit "Host" = Some host_value ∧
    sample_headers !! lit "X-TC-Action" = Some action_value ∧
    canonical_headers sample_client =
      lit "content-type:" ++ content_type ++ nl ++
      lit "host:" ++ host_value ++ nl ++
      lit "x-tc-action:" ++ lower action_value ++ nl.
Proof.
  split; [exact sample_prepare_headers|].
  exact (signed_headers_are_sent sample_client (payload_of sample_client sample_text)
           sample_timestamp sample_date sample_headers sample_prepare_headers).
Defined.

(** ** Runs of [translate], continued *)

Lemma fromtimestamp_raises_only (t : Z) (e : exn) :
  Calendar.fromtimestamp_utc t = Raise e → e = TimestampOutOfRange.
Proof.
  unfold Calendar.fromtimestamp_utc.
  destruct (_ && _); [discriminate|]. congruence.
Qed.

Lemma prepare_headers_raises_only
    (self : TencentTranslate) (payload : list N) (timestamp : Z) (date : list N)
    (e : exn) :
  _prepare_headers self payload timestamp date = Raise e → e = UnicodeEncodeError.
Proof.
  pose proof (prepare_headers_cases self payload timestamp date) as H.
  destruct (signing_texts_encodable self payload date).
  - destruct H as [h ->]. discriminate.
  - rewrite H. congruence.
Qed.

Lemma translate_texts_encodable
    (self : TencentTranslate) (text : list N) (d : Calendar.date) :
  signing_texts_encodable self (payload_of self text) (Calendar.strftime_Ymd d) =
  UTF8.encodable (host self) && UTF8.encodable (lower (action self)) &&
  UTF8.encodable (secret_key self) && UTF8.encodable (service self) &&
  UTF8.encodable (algorithm self).
Proof.
  unfold signing_texts_encodable.
  rewrite (ascii_encodable _ (ascii_only_payload self text)).
  rewrite (ascii_encodable _ (ascii_only_strftime d)).
  cbn [andb]. rewrite andb_true_r. reflexivity.
Qed.

Lemma translate_sent_once
    (clock : nat → Z) (network : request → result response)
    (self : TencentTranslate) (text : list N) (w : world)
    (d : Calendar.date) (h : gmap (list N) (list N)) :
  Calendar.fromtimestamp_utc (clock (clock_reads w)) = Ok d →
  _prepare_headers self (payload_of self text) (clock (clock_reads w))
    (Calendar.strftime_Ymd d) = Ok h →
  ∃ r rest,
    translate clock network self text w =
      (r, World (S (clock_reads w))
            (trace w ++
             Posted (Request (lit "https://" ++ host self) h (payload_of self text))
             :: rest)) ∧
    (∀ req, Posted req ∉ rest) ∧ length rest ≤ 2.
Proof.
  intros Hd Hh.
  destruct (network (Request (lit "https://" ++ host self) h (payload_of self text)))
    as [resp|e] eqn:Hn.
  - destruct (resp_json resp) as [res|e] eqn:Hj.
    + rewrite (translate_parsed _ _ _ _ _ _ _ Hd Hh _ _ Hn Hj).
      destruct (shape_of res); do 2 eexists; (split; [reflexivity|]);
        (split; [no_further_post | simpl; lia]).
    + rewrite (translate_json_raises _ _ _ _ _ _ _ Hd Hh _ _ Hn Hj).
      destruct (isinstance_Exception e); do 2 eexists; (split; [reflexivity|]);
        (split; [no_further_post | simpl; lia]).
  - rewrite (translate_post_raises _ _ _ _ _ _ _ Hd Hh _ Hn).
    destruct (isinstance_Exception e); do 2 eexists; (split; [reflexivity|]);
      (split; [no_further_post | simpl; lia]).
Qed.

(** X6: a client made by [__init__] with a secret key that has UTF-8
    bytes sends exactly one request to https://tmt.tencentcloudapi.com
    with the payload as its body, for every text and every language
    code, lone surrogates included, as long as the clock reading has a
    date; at most two log records follow. *)
Theorem translate_sends_for_every_text
    (clock : nat → Z) (network : request → result response)
    (sid skey tok reg src tgt : list N) (text : list N) (w : world)
    (d : Calendar.date) :
  let self := __init__ sid skey tok reg src tgt in
  UTF8.encodable skey = true →
  Calendar.fromtimestamp_utc (clock (clock_reads w)) = Ok d →
  ∃ (h : gmap (list N) (list N)) r rest,
    translate clock network self text w =
      (r, World (S (clock_reads w))
            (trace w ++
             Posted (Request (lit "https://tmt.tencentcloudapi.com") h
                       (payload_of self text))
             :: rest)) ∧
    (∀ req, Posted req ∉ rest) ∧
    length rest ≤ 2.
Proof.
  intros self Hk Hd.
  pose proof (prepare_headers_cases self (payload_of self text)
                (clock (clock_reads w)) (Calendar.strftime_Ymd d)) as Hout.
  rewrite translate_texts_encodable in Hout.
  change (UTF8.encodable (secret_key self)) with (UTF8.encodable skey) in Hout.
  rewrite Hk in Hout.
  change (UTF8.encodable (host self) && UTF8.encodable (lower (action self)) &&
          true && UTF8.encodable (service self) && UTF8.encodable (algorithm self))
    with true in Hout.
  destruct Hout as [h Hh]. exists h.
  exact (translate_sent_once clock network self text w d h Hd Hh).
Qed.

(** X7: with a secret key that has no UTF-8 bytes [translate] raises
    [UnicodeEncodeError] before anything is sent, and logs nothing: the
    signing runs outside the [try] block. *)
Theorem translate_unencodable_key
    (clock : nat → Z) (network : request → result response)
    (self : TencentTranslate) (text : list N) (w : world) (d : Calendar.date) :
  UTF8.encodable (secret_key self) = false →
  Calendar.fromtimestamp_utc (clock (clock_reads w)) = Ok d →
  translate clock network self text w =
  (Raise UnicodeEncodeError, World (S (clock_reads w)) (trace w)).
Proof.
  intros Hk Hd.
  pose proof (prepare_headers_cases self (payload_of self text)
                (clock (clock_reads w)) (Calendar.strftime_Ymd d)) as Hout.
  rewrite translate_texts_encodable, Hk in Hout.
  rewrite andb_false_r in Hout. cbn [andb] in Hout.
  exact (translate_signing_raises _ _ _ _ _ _ _ Hd Hout).
Qed.

(** X8: when the HTTP call or the JSON decoding raises something that is
    not an instance of [Exception], [translate] lets it pass: the request
    was sent once, nothing is logged and the same object is raised. *)
Theorem non_exception_passes_unlogged
    (clock : nat → Z) (network : request → result response)
    (self : TencentTranslate) (text : list N) (w : world)
    (d : Calendar.date) (h : gmap (list N) (list N)) (e : exn) :
  let ts := clock (clock_reads w) in
  let payload := payload_of self text in
  let req := Request (lit "https://" ++ host self) h payload in
  Calendar.fromtimestamp_utc ts = Ok d →
  _prepare_headers self payload ts (Calendar.strftime_Ymd d) = Ok h →
  isinstance_Exception e = false →
  (network req = Raise e ∨
   ∃ resp, network req = Ok resp ∧ resp_json resp = Raise e) →
  translate clock network self text w =
  (Raise e, World (S (clock_reads w)) (trace w ++ [Posted req])).
Proof.
  intros ts payload req Hd Hh He [Hn | (resp & Hn & Hj)].
  - rewrite (translate_post_raises _ _ _ _ _ _ _ Hd Hh _ Hn), He. reflexivity.
  - rewrite (translate_json_raises _ _ _ _ _ _ _ Hd Hh _ _ Hn Hj), He. reflexivity.
Qed.

Lemma translate_sends_for_every_text_witness :
  UTF8.encodable (lit "secret") = true ∧
  Calendar.fromtimestamp_utc (sample_clock (clock_reads start_world)) =
    Ok (Calendar.Date 2023 11 14) ∧
  ∃ (h : gmap (list N) (list N)) r rest,
    translate sample_clock failing_network sample_client [0xd800%N] start_world =
      (r, World 1
            ([] ++
             Posted (Request (lit "https://tmt.tencentcloudapi.com") h
                       (payload_of sample_client [0xd800%N]))
             :: rest)) ∧
    (∀ req, Posted req ∉ rest) ∧
    length rest ≤ 2.
Proof.
  split; [reflexivity|]. split; [exact sample_fromtimestamp|].
  exact (translate_sends_for_every_text sample_clock failing_network
           (lit "AKID") (lit "secret") default_token default_region
           default_source_lang default_target_lang [0xd800%N] start_world
           (Calendar.Date 2023 11 14) eq_refl sample_fromtimestamp).
Defined.

Lemma translate_unencodable_key_witness :
  UTF8.encodable (secret_key surrogate_key_client) = false ∧
  Calendar.fromtimestamp_utc (sample_clock (clock_reads start_world)) =
    Ok (Calendar.Date 2023 11 14) ∧
  translate sample_clock failing_network surrogate_key_client sample_text
    start_world =
  (Raise UnicodeEncodeError, World 1 []).
Proof.
  split; [reflexivity|]. split; [exact sample_fromtimestamp|].
  exact (translate_unencodable_key sample_clock failing_network
           surrogate_key_client sample_text start_world
           (Calendar.Date 2023 11 14) eq_refl sample_fromtimestamp).
Defined.

Lemma non_exception_passes_unlogged_witness :
  Calendar.fromtimestamp_utc (sample_clock (clock_reads start_world)) =
    Ok (Calendar.Date 2023 11 14) ∧
  _prepare_headers sample_client (payload_of sample_client sample_text)
    (sample_clock (clock_reads start_world))
    (Calendar.strftime_Ymd (Calendar.Date 2023 11 14)) = Ok sample_headers ∧
  isinstance_Exception interrupt = false ∧
  interrupted_network sample_request = Raise interrupt ∧
  translate sample_clock interrupted_network sample_client sample_text start_world =
  (Raise interrupt, World 1 [Posted sample_request]).
Proof.
  split; [exact sample_fromtimestamp|]. split; [exact sample_prepare_headers_run|].
  split; [reflexivity|]. split; [reflexivity|].
  apply (non_exception_passes_unlogged sample_clock interrupted_network
           sample_client sample_text start_world (Calendar.Date 2023 11 14)
           sample_headers interrupt sample_fromtimestamp
           sample_prepare_headers_run eq_refl).
  left. reflexivity.
Defined.

Lemma shape_missing_no_path (res : pyval) :
  shape_of res = FieldMissing →
  json_path [lit "Response"; lit "TargetText"] res = None.
Proof.
  intros Hs.
  destruct (json_path [lit "Response"; lit "TargetText"] res) as [x|] eqn:Hp;
    [|reflexivity].
  apply shape_present_path in Hp. congruence.
Qed.

(** X9: whatever [translate] returns comes from the response: a returned
    value is the one stored at [Response.TargetText] of the parsed body,
    or it is the fallback string and the body has nothing there. *)
Theorem translate_result_comes_from_response
    (clock : nat → Z) (network : request → result response)
    (self : TencentTranslate) (text : list N) (w : world) (v : pyval) :
  fst (translate clock network self text w) = Ok v →
  ∃ d h resp res,
    Calendar.fromtimestamp_utc (clock (clock_reads w)) = Ok d ∧
    _prepare_headers self (payload_of self text) (clock (clock_reads w))
      (Calendar.strftime_Ymd d) = Ok h ∧
    network (Request (lit "https://" ++ host self) h (payload_of self text)) =
      Ok resp ∧
    resp_json resp = Ok res ∧
    (json_path [lit "Response"; lit "TargetText"] res = Some v ∨
     json_path [lit "Response"; lit "TargetText"] res = None ∧
     v = PStr (lit "Translation failed")).
Proof.
  destruct (Calendar.fromtimestamp_utc (clock (clock_reads w))) as [d|e] eqn:Hd.
  2:{ rewrite (translate_date_raises _ _ _ _ _ _ Hd). discriminate. }
  destruct (_prepare_headers self (payload_of self text) (clock (clock_reads w))
              (Calendar.strftime_Ymd d)) as [h|e] eqn:Hh.
  2:{ rewrite (translate_signing_raises _ _ _ _ _ _ _ Hd Hh). discriminate. }
  destruct (network (Request (lit "https://" ++ host self) h (payload_of self text)))
    as [resp|e] eqn:Hn.
  2:{ rewrite (translate_post_raises _ _ _ _ _ _ _ Hd Hh _ Hn).
      destruct (isinstance_Exception e); discriminate. }
  destruct (resp_json resp) as [res|e] eqn:Hj.
  2:{ rewrite (translate_json_raises _ _ _ _ _ _ _ Hd Hh _ _ Hn Hj).
      destruct (isinstance_Exception e); discriminate. }
  rewrite (translate_parsed _ _ _ _ _ _ _ Hd Hh _ _ Hn Hj).
  destruct (shape_of res) as [x| |] eqn:Hs; cbn [fst]; [| |discriminate].
  - intros <-%Ok_inj. exists d, h, resp, res.
    do 4 (split; [assumption || reflexivity|]).
    left. by apply shape_present_path.
  - intros <-%Ok_inj. exists d, h, resp, res.
    do 4 (split; [assumption || reflexivity|]).
    right. split; [by apply shape_missing_no_path | reflexivity].
Qed.

(** X10: the exceptions of [translate].  Before anything is sent it
    raises only for a clock reading without a date or for a text without
    UTF-8 bytes; after the request is sent it raises only what the HTTP
    call raised, what the JSON decoding raised, or the [AttributeError] of
    [get] on a body that is not an object (or whose [Response] is not). *)
Theorem translate_raises_only
    (clock : nat → Z) (network : request → result response)
    (self : TencentTranslate) (text : list N) (w : world) (e : exn) :
  let out := translate clock network self text w in
  fst out = Raise e →
  (trace (snd out) = trace w ∧
   (e = TimestampOutOfRange ∨ e = UnicodeEncodeError)) ∨
  ∃ d h,
    Calendar.fromtimestamp_utc (clock (clock_reads w)) = Ok d ∧
    _prepare_headers self (payload_of self text) (clock (clock_reads w))
      (Calendar.strftime_Ymd d) = Ok h ∧
    let req := Request (lit "https://" ++ host self) h (payload_of self text) in
    (network req = Raise e ∨
     ∃ resp, network req = Ok resp ∧
       (resp_json resp = Raise e ∨
        ∃ res, resp_json resp = Ok res ∧ shape_of res = NotAnObject ∧
               e = AttributeError "get")).
Proof.
  intros out. unfold out.
  destruct (Calendar.fromtimestamp_utc (clock (clock_reads w))) as [d|e'] eqn:Hd.
  2:{ rewrite (translate_date_raises _ _ _ _ _ _ Hd). cbn [fst snd trace].
      intros [= <-]. left. split; [reflexivity|].
      left. by apply fromtimestamp_raises_only in Hd. }
  destruct (_prepare_headers self (payload_of self text) (clock (clock_reads w))
              (Calendar.strftime_Ymd d)) as [h|e'] eqn:Hh.
  2:{ rewrite (translate_signing_raises _ _ _ _ _ _ _ Hd Hh). cbn [fst snd trace].
      intros [= <-]. left. split; [reflexivity|].
      right. by apply prepare_headers_raises_only in Hh. }
  intros Hout. right. exists d, h. do 2 (split; [assumption || reflexivity|]).
  cbv zeta.
  destruct (network (Request (lit "https://" ++ host self) h (payload_of self text)))
    as [resp|e'] eqn:Hn.
  2:{ rewrite (translate_post_raises _ _ _ _ _ _ _ Hd Hh _ Hn) in Hout.
      left. destruct (isinstance_Exception e'); cbn [fst] in Hout; congruence. }
  right. exists resp. split; [reflexivity|].
  destruct (resp_json resp) as [res|e'] eqn:Hj.
  2:{ rewrite (translate_json_raises _ _ _ _ _ _ _ Hd Hh _ _ Hn Hj) in Hout.
      left. destruct (isinstance_Exception e'); cbn [fst] in Hout; congruence. }
  rewrite (translate_parsed _ _ _ _ _ _ _ Hd Hh _ _ Hn Hj) in Hout.
  right. exists res. split; [reflexivity|].
  destruct (shape_of res); cbn [fst] in Hout; try discriminate.
  split; [reflexivity | congruence].
Qed.

(** X11: end to end.  A client made by [__init__] with a usable secret
    key, on a network that answers with a body holding [x] at
    [Response.TargetText], returns [x]; it sends one request, stamped
    with the clock reading, and logs the body once at info level. *)
Theorem translate_end_to_end
    (clock : nat → Z) (sid skey tok reg src tgt : list N) (text : list N)
    (w : world) (d : Calendar.date) (body x : pyval) :
  let self := __init__ sid skey tok reg src tgt in
  UTF8.encodable skey = true →
  Calendar.fromtimestamp_utc (clock (clock_reads w)) = Ok d →
  json_path [lit "Response"; lit "TargetText"] body = Some x →
  ∃ h : gmap (list N) (list N),
    translate clock (answering body) self text w =
    (Ok x,
     World (S (clock_reads w))
       (trace w ++
        [Posted (Request (lit "https://tmt.tencentcloudapi.com") h
                   (payload_of self text));
         Logged INFO (lit "Request successful: ") (OfValue body)])) ∧
    h !! lit "X-TC-Timestamp" = Some (str_of_int (clock (clock_reads w))).
Proof.
  intros self Hk Hd Hx.
  pose proof (prepare_headers_cases self (payload_of self text)
                (clock (clock_reads w)) (Calendar.strftime_Ymd d)) as Hout.
  rewrite translate_texts_encodable in Hout.
  change (UTF8.encodable (secret_key self)) with (UTF8.encodable skey) in Hout.
  rewrite Hk in Hout.
  change (UTF8.encodable (host self) && UTF8.encodable (lower (action self)) &&
          true && UTF8.encodable (service self) && UTF8.encodable (algorithm self))
    with true in Hout.
  destruct Hout as [h Hh]. exists h. split.
  - rewrite (translate_parsed clock (answering body) self text w d h Hd Hh
               (Response (Ok body)) body eq_refl eq_refl).
    apply shape_present_path in Hx. rewrite Hx. reflexivity.
  - by destruct (prepare_headers_inv _ _ _ _ _ Hh) as (_ & _ & _ & _ & _ & Hts).
Qed.

Lemma sample_translated_run :
  translate sample_clock (answering body_translated) sample_client sample_text
    start_world =
  (Ok (PStr (lit "konnichiwa")),
   World 1 [Posted sample_request;
            Logged INFO (lit "Request successful: ") (OfValue body_translated)]).
Proof.
  rewrite (translate_parsed sample_clock (answering body_translated)
             sample_client sample_text start_world (Calendar.Date 2023 11 14)
             sample_headers sample_fromtimestamp sample_prepare_headers_run
             (Response (Ok body_translated)) body_translated eq_refl eq_refl).
  reflexivity.
Qed.

Lemma sample_failing_run :
  translate sample_clock failing_network sample_client sample_text start_world =
  (Raise connect_error,
   World 1 [Posted sample_request;
            Logged CRITICAL (lit "API call error: ") (OfException connect_error)]).
Proof.
  rewrite (translate_post_raises sample_clock failing_network sample_client
             sample_text start_world (Calendar.Date 2023 11 14) sample_headers
             sample_fromtimestamp sample_prepare_headers_run connect_error eq_refl).
  reflexivity.
Qed.

Lemma translate_result_comes_from_response_witness :
  fst (translate sample_clock (answering body_translated) sample_client
         sample_text start_world) = Ok (PStr (lit "konnichiwa")) ∧
  ∃ d h resp res,
    Calendar.fromtimestamp_utc (sample_clock (clock_reads start_world)) = Ok d ∧
    _prepare_headers sample_client (payload_of sample_client sample_text)
      (sample_clock (clock_reads start_world)) (Calendar.strftime_Ymd d) = Ok h ∧
    answering body_translated
      (Request (lit "https://" ++ host sample_client) h
         (payload_of sample_client sample_text)) = Ok resp ∧
    resp_json resp = Ok res ∧
    (json_path [lit "Response"; lit "TargetText"] res =
       Some (PStr (lit "konnichiwa")) ∨
     json_path [lit "Response"; lit "TargetText"] res = None ∧
     PStr (lit "konnichiwa") = PStr (lit "Translation failed")).
Proof.
  assert (fst (translate sample_clock (answering body_translated) sample_client
                 sample_text start_world) = Ok (PStr (lit "konnichiwa"))) as H
    by (rewrite sample_translated_run; reflexivity).
  split; [exact H|].
  exact (translate_result_comes_from_response sample_clock
           (answering body_translated) sample_client sample_text start_world
           (PStr (lit "konnichiwa")) H).
Defined.

Lemma translate_raises_only_witness :
  fst (translate sample_clock failing_network sample_client sample_text
         start_world) = Raise connect_error ∧
  ∃ d h,
    Calendar.fromtimestamp_utc (sample_clock (clock_reads start_world)) = Ok d ∧
    _prepare_headers sample_client (payload_of sample_client sample_text)
      (sample_clock (clock_reads start_world)) (Calendar.strftime_Ymd d) = Ok h ∧
    failing_network
      (Request (lit "https://" ++ host sample_client) h
         (payload_of sample_client sample_text)) = Raise connect_error.
Proof.
  assert (fst (translate sample_clock failing_network sample_client sample_text
                 start_world) = Raise connect_error) as H
    by (rewrite sample_failing_run; reflexivity).
  split; [exact H|].
  destruct (translate_raises_only sample_clock failing_network sample_client
              sample_text start_world connect_error H)
    as [[_ [Hno | Hno]] | (d & h & Hd & Hh & _)].
  - discriminate Hno.
  - discriminate Hno.
  - exists d, h. do 2 (split; [assumption|]). reflexivity.
Defined.

Lemma translate_end_to_end_witness :
  UTF8.encodable (lit "secret") = true ∧
  Calendar.fromtimestamp_utc (sample_clock (clock_reads start_world)) =
    Ok (Calendar.Date 2023 11 14) ∧
  json_path [lit "Response"; lit "TargetText"] body_translated =
    Some (PStr (lit "konnichiwa")) ∧
  ∃ h : gmap (list N) (list N),
    translate sample_clock (answering body_translated) sample_client sample_text
      start_world =
    (Ok (PStr (lit "konnichiwa")),
     World 1
       ([] ++
        [Posted (Request (lit "https://tmt.tencentcloudapi.com") h
                   (payload_of sample_client sample_text));
         Logged INFO (lit "Request successful: ") (OfValue body_translated)])) ∧
    h !! lit "X-TC-Timestamp" = Some (str_of_int 1700000000).
Proof.
  split; [reflexivity|]. split; [exact sample_fromtimestamp|].
  split; [reflexivity|].
  exact (translate_end_to_end sample_clock (lit "AKID") (lit "secret")
           default_token default_region default_source_lang default_target_lang
           sample_text start_world (Calendar.Date 2023 11 14) body_translated
           (PStr (lit "konnichiwa")) eq_refl sample_fromtimestamp eq_refl).
Defined.

(** ** The payload *)

Lemma printable_app (a b : list N) :
  printable_ascii (a ++ b) = printable_ascii a && printable_ascii b.
Proof. apply forallb_app. Qed.

Lemma printable_hex_digit (n : N) :
  ((32 <=? hex_digit (N.land n 15)) && (hex_digit (N.land n 15) <=? 126))%N = true.
Proof.
  assert (N.land n 15 < 16)%N as H.
  { change 15%N with (N.ones 4). rewrite N.land_ones. by apply N.mod_lt. }
  unfold hex_digit. apply andb_true_iff.
  destruct (N.ltb_spec (N.land n 15) 10); split; apply N.leb_le; lia.
Qed.

Lemma printable_u_escape (n : N) : printable_ascii (JSON.u_escape n) = true.
Proof.
  unfold JSON.u_escape, JSON.hex4, printable_ascii. cbn [app forallb].
  rewrite !printable_hex_digit. reflexivity.
Qed.

Lemma printable_escape_char (c : N) : printable_ascii (JSON.escape_char c) = true.
Proof.
  unfold JSON.escape_char.
  repeat (case_match; [try reflexivity|]).
  - unfold printable_ascii. cbn [forallb]. rewrite andb_true_r. assumption.
  - apply printable_u_escape.
  - rewrite printable_app, !printable_u_escape. reflexivity.
Qed.

Lemma printable_basestring (s : list N) :
  printable_ascii (JSON.encode_basestring_ascii s) = true.
Proof.
  unfold JSON.encode_basestring_ascii. rewrite !printable_app.
  replace (printable_ascii (flat_map JSON.escape_char s)) with true; [reflexivity|].
  symmetry. induction s as [|c s IH]; [reflexivity|].
  change (flat_map JSON.escape_char (c :: s))
    with (JSON.escape_char c ++ flat_map JSON.escape_char s).
  by rewrite printable_app, printable_escape_char, IH.
Qed.

(** X12: the payload [translate] builds is a single line of printable
    ASCII for every text, so encoding it never raises and yields one
    byte per character; it opens with the escaped source text under the
    key [SourceText], with the separators [": "] and [", "]. *)
Theorem payload_is_one_printable_line
    (self : TencentTranslate) (text : list N) :
  printable_ascii (payload_of self text) = true ∧
  encode_utf8 (payload_of self text) = Ok (map byte_of_N (payload_of self text)) ∧
  ∃ rest,
    payload_of self text =
    lit "{" ++ JSON.encode_basestring_ascii (lit "SourceText") ++ lit ": " ++
    JSON.encode_basestring_ascii text ++ lit ", " ++ rest.
Proof.
  split; [|split].
  - unfold payload_of. cbn [JSON.dumps].
    rewrite !printable_app, !printable_basestring.
    change (printable_ascii (str_of_int 0)) with true. reflexivity.
  - unfold encode_utf8.
    by rewrite (encode_opt_ascii _ (ascii_only_payload self text)).
  - unfold payload_of. cbn [JSON.dumps]. rewrite <- !app_assoc.
    eexists. reflexivity.
Qed.

(** ** What the log says *)

Ltac only_listed Hin :=
  repeat (apply elem_of_cons in Hin as [Hin|Hin];
          [try discriminate Hin|]);
  try (exfalso; exact (proj1 (elem_of_nil _) Hin)).

(** X13: the log tells the truth.  A record at critical level always
    reads "API call error: " with the very exception [translate] raises;
    a record at info level always carries the parsed body of the response
    to the request just sent; and a raised [Exception] is either logged
    at critical level or was raised before anything was sent or logged. *)
Theorem log_records_are_truthful
    (clock : nat → Z) (network : request → result response)
    (self : TencentTranslate) (text : list N) (w : world) :
  let out := translate clock network self text w in
  ∃ new,
    trace (snd out) = trace w ++ new ∧
    (∀ lvl txt arg, Logged lvl txt arg ∈ new →
       match lvl with
       | CRITICAL =>
           txt = lit "API call error: " ∧
           ∃ e, arg = OfException e ∧ fst out = Raise e ∧
                isinstance_Exception e = true
       | INFO =>
           txt = lit "Request successful: " ∧
           ∃ res, arg = OfValue res ∧
             ∃ req resp, Posted req ∈ new ∧ network req = Ok resp ∧
                         resp_json resp = Ok res
       end) ∧
    (∀ e, fst out = Raise e → isinstance_Exception e = true →
          new = [] ∨ ∃ txt, Logged CRITICAL txt (OfException e) ∈ new).
Proof.
  intros out. unfold out.
  destruct (Calendar.fromtimestamp_utc (clock (clock_reads w))) as [d|e'] eqn:Hd.
  2:{ rewrite (translate_date_raises _ _ _ _ _ _ Hd). exists [].
      cbn [fst snd trace]. split; [by rewrite app_nil_r|]. split.
      - intros lvl txt arg Hin. exfalso. exact (proj1 (elem_of_nil _) Hin).
      - intros. by left. }
  destruct (_prepare_headers self (payload_of self text) (clock (clock_reads w))
              (Calendar.strftime_Ymd d)) as [h|e'] eqn:Hh.
  2:{ rewrite (translate_signing_raises _ _ _ _ _ _ _ Hd Hh). exists [].
      cbn [fst snd trace]. split; [by rewrite app_nil_r|]. split.
      - intros lvl txt arg Hin. exfalso. exact (proj1 (elem_of_nil _) Hin).
      - intros. by left. }
  destruct (network (Request (lit "https://" ++ host self) h (payload_of self text)))
    as [resp|e'] eqn:Hn.
  2:{ rewrite (translate_post_raises _ _ _ _ _ _ _ Hd Hh _ Hn).
      destruct (isinstance_Exception e') eqn:He; eexists;
        cbn [fst snd trace]; (split; [reflexivity|]); split.
      - intros lvl txt arg Hin. only_listed Hin.
        injection Hin as -> -> ->. split; [reflexivity|]. by exists e'.
      - intros e [= <-] _. right. eexists. apply list_elem_of_further, list_elem_of_here.
      - intros lvl txt arg Hin. only_listed Hin.
      - intros e [= <-] He'. congruence. }
  destruct (resp_json resp) as [res|e'] eqn:Hj.
  2:{ rewrite (translate_json_raises _ _ _ _ _ _ _ Hd Hh _ _ Hn Hj).
      destruct (isinstance_Exception e') eqn:He; eexists;
        cbn [fst snd trace]; (split; [reflexivity|]); split.
      - intros lvl txt arg Hin. only_listed Hin.
        injection Hin as -> -> ->. split; [reflexivity|]. by exists e'.
      - intros e [= <-] _. right. eexists. apply list_elem_of_further, list_elem_of_here.
      - intros lvl txt arg Hin. only_listed Hin.
      - intros e [= <-] He'. congruence. }
  rewrite (translate_parsed _ _ _ _ _ _ _ Hd Hh _ _ Hn Hj).
  assert (∀ new : list event,
            Posted (Request (lit "https://" ++ host self) h (payload_of self text))
              ∈ Posted (Request (lit "https://" ++ host self) h (payload_of self text))
                :: new) as Hposted by (intros; apply list_elem_of_here).
  destruct (shape_of res); eexists; cbn [fst snd trace];
    (split; [reflexivity|]); split.
  - intros lvl txt arg Hin. only_listed Hin.
    injection Hin as -> -> ->. split; [reflexivity|]. exists res.
    split; [reflexivity|]. eauto.
  - intros e [=].
  - intros lvl txt arg Hin. only_listed Hin.
    injection Hin as -> -> ->. split; [reflexivity|]. exists res.
    split; [reflexivity|]. eauto.
  - intros e [=].
  - intros lvl txt arg Hin. only_listed Hin.
    + injection Hin as -> -> ->. split; [reflexivity|]. exists res.
      split; [reflexivity|]. eauto.
    + injection Hin as -> -> ->. split; [reflexivity|].
      exists (AttributeError "get"). by repeat split.
  - intros e [= <-] _. right. eexists.
    do 2 apply list_elem_of_further. apply list_elem_of_here.
Qed.
